(** * duet: the ownership-scoped data store and the token gate

    A shallow embedding of [data/database.go], of the token handlers of
    package [data] and of the GraphQL gate of [main], followed by the
    properties of the design document that concern them.

    The relational store behind [gorm] is a record of tables; every method
    of [gormDB] takes the store and returns the store it leaves behind.
    Primitives of the libraries the code calls ([bcrypt], the JWT codec and
    MAC, the request helpers of package [data] that live in other files)
    are fields of type classes, so that nothing is assumed about them that a
    statement does not say. *)

From Stdlib Require Import ZArith NArith List String Ascii Bool Lia.
From Stdlib Require Import DecimalString.
Import ListNotations.
Open Scope Z_scope.
Open Scope string_scope.

(** ** Go values *)

(** [uint64] values are stored and compared, never computed on. *)
Definition uint64 := N.
(** [time.Time] as a count of time units; the zero value is [0]. *)
Definition Time := Z.
(** [[]byte]; a Go string is a byte sequence too, and [[]byte(s)] is [s]. *)
Definition bytes := string.

(** [time.Duration]: nanoseconds in an int64. *)
Definition maxDuration : Z := 9223372036854775807.
Definition minDuration : Z := -9223372036854775808.

(** [time.Unix(t, 0).Sub(time.Unix(u, 0))]: the difference as a Duration,
    the largest or the least Duration when it does not fit. *)
Definition Unix_Sub (t u : Z) : Z :=
  let d := (t - u) * 1000000000 in
  if Z.ltb maxDuration d then maxDuration
  else if Z.ltb d minDuration then minDuration
  else d.

(** The [%d] verb of [fmt] at an unsigned integer. *)
Definition fmt_d (n : N) : string := NilEmpty.string_of_uint (N.to_uint n).

(** Errors, by where they are made. *)
#[local] Unset Elimination Schemes.
Inductive error : Type :=
| ErrRecordNotFound                       (* gorm.ErrRecordNotFound *)
| PqError (msg : string)                  (* a statement refused by the database *)
| Errorf (msg : string)                   (* fmt.Errorf, formatted *)
| LibError (pkg msg : string)             (* an error of bcrypt, base64 or json *)
| ErrSignatureInvalid                     (* jwt.ErrSignatureInvalid *)
| ErrInvalidKeyType                       (* jwt.ErrInvalidKeyType *)
| NoneSignatureTypeDisallowedError
| ErrTokenExpired (by_ : Z)               (* "token is expired by ...", a Duration *)
| ValidationError (Inner : option error) (text : string) (Errors : N).
#[local] Set Elimination Schemes.

(** [(T, error)] returns of the libraries that are all-or-nothing. *)
Inductive result (A : Type) : Type :=
| Ok (a : A)
| Err (e : error).
Arguments Ok {A} a.
Arguments Err {A} e.

(** ** The relational store as gorm drives it *)

Module Gorm.

  (** A column value. *)
Inductive Value : Type :=
  | VNull
  | VString (s : string)
  | VUint (n : N)
  | VInt (z : Z)
  | VBool (b : bool)
  | VTime (t : Time).

  (** SQL [=] between a column and a bound variable: never true at NULL. *)
Definition sql_eq (a b : Value) : bool :=
    match a, b with
    | VString x, VString y => String.eqb x y
    | VUint x, VUint y => N.eqb x y
    | VInt x, VInt y => Z.eqb x y
    | VBool x, VBool y => Bool.eqb x y
    | VTime x, VTime y => Z.eqb x y
    | _, _ => false
    end.

  (** gorm's [isBlank]: the zero value of the field's Go type. *)
Definition isBlank (v : Value) : bool :=
    match v with
    | VNull => true
    | VString s => String.eqb s ""
    | VUint n => N.eqb n 0
    | VInt z => Z.eqb z 0
    | VBool b => negb b
    | VTime t => Z.eqb t 0
    end.

  (** A row, by column name, and the conjunction of equalities of a WHERE. *)
Definition Row := list (string * Value).
Definition Conditions := list (string * Value).

Definition column (r : Row) (c : string) : Value :=
    match find (fun p => String.eqb (fst p) c) r with
    | Some p => snd p
    | None => VNull
    end.

Definition satisfies (r : Row) (cs : Conditions) : bool :=
    forallb (fun p => sql_eq (column r (fst p)) (snd p)) cs.

  (** [Where(map[string]interface{}{...})]: every key of the map is a
      condition, whatever its value. *)
Definition whereMap (m : list (string * Value)) : Conditions := m.

  (** [Where(&struct)]: only the fields that are not blank are conditions. *)
Definition whereStruct (r : Row) : Conditions :=
    filter (fun p => negb (isBlank (snd p))) r.

  (** What gorm knows of a model type. *)
Class Model (A : Type) : Type := {
    fields : A -> Row;                    (* the columns, by database name *)
    primaryField : string;                (* the primary_key column *)
    deletedAtOf : option (A -> option Time);          (* a DeletedAt field *)
    withDeletedAt : A -> Time -> A
  }.

Section Statements.
Context {A : Type} `{Model A}.

Definition primaryKey (a : A) : Value := column (fields a) primaryField.

    (** Rows a statement can see: [deleted_at IS NULL] when the model has
        the field. *)
Definition visible (a : A) : bool :=
      match deletedAtOf with
      | Some get => match get a with None => true | Some _ => false end
      | None => true
      end.

    (** The primary-key condition gorm adds when the value handed to the
        statement has its primary field set. *)
Definition primaryCondition (value : A) : Conditions :=
      if isBlank (primaryKey value) then []
      else [(primaryField, primaryKey value)].

    (** gorm's [whereSQL]. *)
Definition selected (value : A) (cs : Conditions) (a : A) : bool :=
      visible a && satisfies (fields a) (primaryCondition value ++ cs)%list.

Definition value_leb (x y : Value) : bool :=
      match x, y with
      | VString a, VString b => String.leb a b
      | VUint a, VUint b => N.leb a b
      | VInt a, VInt b => Z.leb a b
      | VTime a, VTime b => Z.leb a b
      | _, _ => true
      end.

    (** [ORDER BY primary key LIMIT 1] over rows already filtered. *)
Fixpoint least (rows : list A) : option A :=
      match rows with
      | [] => None
      | a :: rest =>
          match least rest with
          | Some b => if value_leb (primaryKey a) (primaryKey b)
                      then Some a else Some b
          | None => Some a
          end
      end.

    (** [Where(cs).First(&value)]. *)
Definition First (table : list A) (cs : Conditions) (value : A) : result A :=
      match least (filter (selected value cs) table) with
      | Some a => Ok a
      | None => Err ErrRecordNotFound
      end.

    (** [Where(cs).Find(&values)]. *)
Definition Find (table : list A) (cs : Conditions) (value : A) : list A :=
      filter (selected value cs) table.

    (** The outcome of a statement that writes. *)
Record Result : Type := {
      Table : list A;
      Error : option error;
      RowsAffected : Z
    }.

    (** [Where(cs).Delete(&value)]: an UPDATE of [deleted_at] for a model
        with a DeletedAt field, a DELETE otherwise; in both cases over the
        rows [whereSQL] selects. *)
Definition Delete (now : Time) (table : list A) (cs : Conditions)
               (value : A) : Result :=
      let hit := selected value cs in
      {| Table :=
           match deletedAtOf with
           | Some _ => map (fun a => if hit a then withDeletedAt a now else a) table
           | None => filter (fun a => negb (hit a)) table
           end;
         Error := None;
         RowsAffected := Z.of_nat (List.length (filter hit table)) |}.

    (** Is the key taken (by any row, deleted or not)? *)
Definition keyTaken (table : list A) (k : Value) : bool :=
      existsb (fun a => sql_eq (primaryKey a) k) table.

End Statements.

End Gorm.
Import Gorm.

(** ** data/database.go *)

Inductive TaskKind : Type := TaskEnum | HabitEnum.
Inductive Interval : Type := Daily | Weekly | Monthly.
Inductive ActionKind : Type := ActionProgress | ActionDefer | ActionDone.

Definition TaskKind_int (k : TaskKind) : Z :=
  match k with TaskEnum => 0 | HabitEnum => 1 end.
Definition Interval_int (i : Interval) : Z :=
  match i with Daily => 0 | Weekly => 1 | Monthly => 2 end.
Definition ActionKind_int (k : ActionKind) : Z :=
  match k with ActionProgress => 0 | ActionDefer => 1 | ActionDone => 2 end.

Record Action : Type := {
  Action_Id : string;
  Action_Kind : ActionKind;
  When : option Time;
  TaskId : string
}.

Record Task : Type := {
  CreatedAt : Time;
  UpdatedAt : Time;
  DeletedAt : option Time;
  Id : string;
  Kind : TaskKind;
  Title : string;
  Done : bool;
  UserId : uint64;
  Actions : list Action;
  StartDate : option Time;
  EndDate : option Time;
  Task_Interval : Interval;
  Frequency : Z
}.

Record User : Type := {
  User_Id : uint64;
  User_CreatedAt : Time;
  User_UpdatedAt : Time;
  User_DeletedAt : option Time;
  Username : string;
  HashedPassword : bytes;
  Tasks : list Task
}.

Definition VTimePtr (t : option Time) : Value :=
  match t with Some x => VTime x | None => VNull end.

(** The zero [Task{}], and the field assignments the code makes. *)
Definition Task_zero : Task :=
  {| CreatedAt := 0; UpdatedAt := 0; DeletedAt := None; Id := ""; Kind := TaskEnum;
     Title := ""; Done := false; UserId := 0%N; Actions := []; StartDate := None;
     EndDate := None; Task_Interval := Daily; Frequency := 0 |}.

Definition set_UserId (t : Task) (u : uint64) : Task :=
  {| CreatedAt := CreatedAt t; UpdatedAt := UpdatedAt t; DeletedAt := DeletedAt t;
     Id := Id t; Kind := Kind t; Title := Title t; Done := Done t; UserId := u;
     Actions := Actions t; StartDate := StartDate t; EndDate := EndDate t;
     Task_Interval := Task_Interval t; Frequency := Frequency t |}.

Definition set_Id (t : Task) (i : string) : Task :=
  {| CreatedAt := CreatedAt t; UpdatedAt := UpdatedAt t; DeletedAt := DeletedAt t;
     Id := i; Kind := Kind t; Title := Title t; Done := Done t; UserId := UserId t;
     Actions := Actions t; StartDate := StartDate t; EndDate := EndDate t;
     Task_Interval := Task_Interval t; Frequency := Frequency t |}.

Definition set_DeletedAt (t : Task) (d : Time) : Task :=
  {| CreatedAt := CreatedAt t; UpdatedAt := UpdatedAt t; DeletedAt := Some d;
     Id := Id t; Kind := Kind t; Title := Title t; Done := Done t; UserId := UserId t;
     Actions := Actions t; StartDate := StartDate t; EndDate := EndDate t;
     Task_Interval := Task_Interval t; Frequency := Frequency t |}.

Definition set_Actions (t : Task) (a : list Action) : Task :=
  {| CreatedAt := CreatedAt t; UpdatedAt := UpdatedAt t; DeletedAt := DeletedAt t;
     Id := Id t; Kind := Kind t; Title := Title t; Done := Done t; UserId := UserId t;
     Actions := a; StartDate := StartDate t; EndDate := EndDate t;
     Task_Interval := Task_Interval t; Frequency := Frequency t |}.

Definition set_stamps (t : Task) (now : Time) : Task :=
  {| CreatedAt := if Z.eqb (CreatedAt t) 0 then now else CreatedAt t;
     UpdatedAt := if Z.eqb (UpdatedAt t) 0 then now else UpdatedAt t;
     DeletedAt := DeletedAt t;
     Id := Id t; Kind := Kind t; Title := Title t; Done := Done t; UserId := UserId t;
     Actions := Actions t; StartDate := StartDate t; EndDate := EndDate t;
     Task_Interval := Task_Interval t; Frequency := Frequency t |}.

Definition Action_zero : Action :=
  {| Action_Id := ""; Action_Kind := ActionProgress; When := None; TaskId := "" |}.

Definition set_Action_Id (a : Action) (i : string) : Action :=
  {| Action_Id := i; Action_Kind := Action_Kind a; When := When a; TaskId := TaskId a |}.

(** The columns of the three tables, from the [json]/[gorm] tags. The
    has-many fields ([Actions], [Tasks]) are associations, not columns. *)
#[export] Instance Task_Model : Model Task := {
  fields t :=
    [ ("created_at", VTime (CreatedAt t)); ("updated_at", VTime (UpdatedAt t));
      ("deleted_at", VTimePtr (DeletedAt t)); ("id", VString (Id t));
      ("kind", VInt (TaskKind_int (Kind t))); ("title", VString (Title t));
      ("done", VBool (Done t)); ("user_id", VUint (UserId t));
      ("start_date", VTimePtr (StartDate t)); ("end_date", VTimePtr (EndDate t));
      ("interval", VInt (Interval_int (Task_Interval t)));
      ("frequency", VInt (Frequency t)) ];
  primaryField := "id";
  deletedAtOf := Some DeletedAt;
  withDeletedAt := set_DeletedAt
}.

#[export] Instance Action_Model : Model Action := {
  fields a :=
    [ ("id", VString (Action_Id a)); ("kind", VInt (ActionKind_int (Action_Kind a)));
      ("when", VTimePtr (When a)); ("task_id", VString (TaskId a)) ];
  primaryField := "id";
  deletedAtOf := None;
  withDeletedAt := fun a _ => a
}.

#[export] Instance User_Model : Model User := {
  fields u :=
    [ ("id", VUint (User_Id u)); ("created_at", VTime (User_CreatedAt u));
      ("updated_at", VTime (User_UpdatedAt u));
      ("deleted_at", VTimePtr (User_DeletedAt u));
      ("username", VString (Username u)) ];
  primaryField := "id";
  deletedAtOf := Some User_DeletedAt;
  withDeletedAt := fun u d =>
    {| User_Id := User_Id u; User_CreatedAt := User_CreatedAt u;
       User_UpdatedAt := User_UpdatedAt u; User_DeletedAt := Some d;
       Username := Username u; HashedPassword := HashedPassword u;
       Tasks := Tasks u |}
}.

(** The database behind a [gormDB] handle: the three tables AutoMigrate
    makes, the time statements run at, and the defaults the database draws
    ([uuid_generate_v4()] for task and action ids, the serial of user ids).
    Statements fail only for the reasons SQL gives: no row, or a key taken. *)
Record gormDB : Type := {
  tasks : list Task;
  users : list User;
  actions : list Action;
  NowFunc : Time;
  uuid_generate_v4 : nat -> string;
  uuid_drawn : nat;
  users_id_seq : N
}.

Definition with_tasks (db : gormDB) (ts : list Task) : gormDB :=
  {| tasks := ts; users := users db; actions := actions db; NowFunc := NowFunc db;
     uuid_generate_v4 := uuid_generate_v4 db; uuid_drawn := uuid_drawn db;
     users_id_seq := users_id_seq db |}.

Definition with_users (db : gormDB) (us : list User) : gormDB :=
  {| tasks := tasks db; users := us; actions := actions db; NowFunc := NowFunc db;
     uuid_generate_v4 := uuid_generate_v4 db; uuid_drawn := uuid_drawn db;
     users_id_seq := users_id_seq db |}.

Definition with_actions (db : gormDB) (acts : list Action) : gormDB :=
  {| tasks := tasks db; users := users db; actions := acts; NowFunc := NowFunc db;
     uuid_generate_v4 := uuid_generate_v4 db; uuid_drawn := uuid_drawn db;
     users_id_seq := users_id_seq db |}.

Definition draw_uuid (db : gormDB) : string * gormDB :=
  (uuid_generate_v4 db (uuid_drawn db),
   {| tasks := tasks db; users := users db; actions := actions db;
      NowFunc := NowFunc db; uuid_generate_v4 := uuid_generate_v4 db;
      uuid_drawn := S (uuid_drawn db); users_id_seq := users_id_seq db |}).

Definition draw_user_id (db : gormDB) : uint64 * gormDB :=
  ((users_id_seq db + 1)%N,
   {| tasks := tasks db; users := users db; actions := actions db;
      NowFunc := NowFunc db; uuid_generate_v4 := uuid_generate_v4 db;
      uuid_drawn := uuid_drawn db; users_id_seq := (users_id_seq db + 1)%N |}).

Definition dquote : string := String (ascii_of_nat 34) EmptyString.

Definition duplicate_key (constraint : string) : error :=
  PqError ("pq: duplicate key value violates unique constraint "
           ++ dquote ++ constraint ++ dquote).

(** [db.Create(task)]: the timestamps are set, a blank id takes the column
    default, and the INSERT is refused when the key is taken. The value
    handed in is updated in place; it is returned next to the store. The
    actions a task value carries are an association, not a column: the row
    keeps none, and [Preload] reads them back from their own table. This
    is the statement on the task table only: the save of the carried
    actions that gorm makes after it is not part of the definition, and what
    is stated of the action table after an [AddTask] is stated for a task
    that carries no action. *)
Definition Create_Task (db : gormDB) (task : Task) : gormDB * Task * option error :=
  let stamped := set_stamps task (NowFunc db) in
  let '(id, db1) := if isBlank (VString (Id task)) then draw_uuid db
                    else (Id task, db) in
  if keyTaken (tasks db1) (VString id)
  then (db1, stamped, Some (duplicate_key "tasks_pkey"))
  else let row := set_Id stamped id in
       (with_tasks db1 (tasks db1 ++ [set_Actions row []])%list, row, None).

(** [db.Create(action)]. *)
Definition Create_Action (db : gormDB) (action : Action)
  : gormDB * Action * option error :=
  let '(id, db1) := if isBlank (VString (Action_Id action)) then draw_uuid db
                    else (Action_Id action, db) in
  if keyTaken (actions db1) (VString id)
  then (db1, action, Some (duplicate_key "actions_pkey"))
  else let row := set_Action_Id action id in
       (with_actions db1 (actions db1 ++ [row])%list, row, None).

(** [db.Create(user)]: the id is the serial's when blank; [username] is
    [unique]. *)
Definition Create_User (db : gormDB) (user : User) : gormDB * User * option error :=
  let '(id, db1) := if isBlank (VUint (User_Id user)) then draw_user_id db
                    else (User_Id user, db) in
  let row :=
    {| User_Id := id;
       User_CreatedAt := if Z.eqb (User_CreatedAt user) 0 then NowFunc db
                         else User_CreatedAt user;
       User_UpdatedAt := if Z.eqb (User_UpdatedAt user) 0 then NowFunc db
                         else User_UpdatedAt user;
       User_DeletedAt := User_DeletedAt user;
       Username := Username user; HashedPassword := HashedPassword user;
       Tasks := [] |} in
  if keyTaken (users db1) (VUint id)
  then (db1, user, Some (duplicate_key "users_pkey"))
  else if existsb (fun u => String.eqb (Username u) (Username user)) (users db1)
  then (db1, user, Some (duplicate_key "users_username_key"))
  else (with_users db1 (users db1 ++ [row])%list, row, None).

(** [Preload("Actions")]: the actions whose [task_id] is the task's id. *)
Definition Preload_Actions (db : gormDB) (task : Task) : Task :=
  set_Actions task
    (Find (actions db) (whereMap [("task_id", VString (Id task))]) Action_zero).

(** [bcrypt], and the cost constant another file of package [data]
    declares. *)
Class Bcrypt : Type := {
  GenerateFromPassword : bytes -> Z -> result bytes;
  bcryptCost : Z
}.

(** [func (db gormDB) GetTask]. The Go return, a task pointer and an
    error, is the pair of an optional task and an optional error. *)
Definition GetTask (db : gormDB) (taskId : string) (userId : uint64)
           (kind : option TaskKind) : option Task * option error :=
  let whereFields :=
    [("id", VString taskId); ("user_id", VUint userId)] in
  let whereFields :=
    match kind with
    | Some k => (whereFields ++ [("kind", VInt (TaskKind_int k))])%list
    | None => whereFields
    end in
  match First (tasks db) (whereMap whereFields) Task_zero with
  | Err err => (None, Some err)
  | Ok task => (Some (Preload_Actions db task), None)
  end.

(** [func (db gormDB) GetTasks]. *)
Definition GetTasks (db : gormDB) (userId : uint64) (kind : option TaskKind)
  : list Task * option error :=
  let whereFields := [("user_id", VUint userId)] in
  let whereFields :=
    match kind with
    | Some k => (whereFields ++ [("kind", VInt (TaskKind_int k))])%list
    | None => whereFields
    end in
  (map (Preload_Actions db) (Find (tasks db) (whereMap whereFields) Task_zero), None).

(** [func (db gormDB) AddTask]. The task is a pointer: the caller sees
    the assignment and what [Create] fills in. *)
Definition AddTask (db : gormDB) (task : Task) (userId : uint64)
  : gormDB * Task * option error :=
  let task := set_UserId task userId in
  Create_Task db task.

(** [func (db gormDB) DeleteTask]. *)
Definition DeleteTask (db : gormDB) (taskId : string) (userId : uint64)
  : gormDB * (bool * option error) :=
  let task := set_UserId (set_Id Task_zero taskId) userId in
  let result := Delete (NowFunc db) (tasks db) (whereStruct (fields task)) task in
  let db' := with_tasks db (Table result) in
  match Error result with
  | Some err => (db', (false, Some err))
  | None => (db', (Z.gtb (RowsAffected result) 0, None))
  end.

(** [func (db gormDB) CreateUser]. *)
Definition CreateUser `{Bcrypt} (db : gormDB) (username password : string)
  : gormDB * (option User * option error) :=
  match GenerateFromPassword password bcryptCost with
  | Err err => (db, (None, Some err))
  | Ok hashedPassword =>
      let user :=
        {| User_Id := 0%N; User_CreatedAt := 0; User_UpdatedAt := 0;
           User_DeletedAt := None; Username := username;
           HashedPassword := hashedPassword; Tasks := [] |} in
      let '(db', user, err) := Create_User db user in
      match err with
      | Some err => (db', (None, Some err))
      | None => (db', (Some user, None))
      end
  end.

(** [func (db gormDB) AddAction]. *)
Definition AddAction (db : gormDB) (action : Action) (userId : uint64)
  : gormDB * Action * option error :=
  let '(task, err) := GetTask db (TaskId action) userId None in
  match task with
  | None =>
      (db, action,
       Some (Errorf ("Task " ++ TaskId action ++ " does not exist for user "
                     ++ fmt_d userId)))
  | Some _ =>
      match err with
      | Some err => (db, action, Some err)
      | None => Create_Action db action
      end
  end.

(** ** The JWT library as the handlers use it

    [github.com/dgrijalva/jwt-go]: the compact serialisation, the registry
    of signing methods, claim validation and [ParseWithClaims]. The base64
    and JSON codecs and the MAC are primitives ([Wire]). *)

Module Jwt.

Inductive SigningMethod : Type :=
  | HS256 | HS384 | HS512
  | RS256 | RS384 | RS512
  | PS256 | PS384 | PS512
  | ES256 | ES384 | ES512
  | none.

Definition Alg (m : SigningMethod) : string :=
    match m with
    | HS256 => "HS256" | HS384 => "HS384" | HS512 => "HS512"
    | RS256 => "RS256" | RS384 => "RS384" | RS512 => "RS512"
    | PS256 => "PS256" | PS384 => "PS384" | PS512 => "PS512"
    | ES256 => "ES256" | ES384 => "ES384" | ES512 => "ES512"
    | none => "none"
    end.

Definition registered : list SigningMethod :=
    [HS256; HS384; HS512; RS256; RS384; RS512; PS256; PS384; PS512;
     ES256; ES384; ES512; none].

Definition GetSigningMethod (alg : string) : option SigningMethod :=
    find (fun m => String.eqb (Alg m) alg) registered.

  (** A JSON value of the header object, as far as the parser looks. *)
Inductive HeaderValue : Type :=
  | JString (s : string)
  | JOther (raw : string).

Definition Header := list (string * HeaderValue).

Definition header_get (h : Header) (k : string) : option HeaderValue :=
    match find (fun p => String.eqb (fst p) k) h with
    | Some p => Some (snd p)
    | None => None
    end.

Definition show (v : option HeaderValue) : string :=
    match v with
    | Some (JString s) => s
    | Some (JOther raw) => raw
    | None => "<nil>"
    end.

Record StandardClaims : Type := {
    Audience : string;
    ExpiresAt : Z;
    Id : string;
    IssuedAt : Z;
    Issuer : string;
    NotBefore : Z;
    Subject : string
  }.

  (** The bits of [ValidationError.Errors]. *)
Definition ValidationErrorMalformed : N := 1.
Definition ValidationErrorUnverifiable : N := 2.
Definition ValidationErrorSignatureInvalid : N := 4.
Definition ValidationErrorExpired : N := 16.
Definition ValidationErrorIssuedAt : N := 32.
Definition ValidationErrorNotValidYet : N := 128.

  (** A [*ValidationError] under construction; [Errors = 0] is [valid()]. *)
Record vErr : Type := { Inner : option error; Errors : N }.

Definition flag (v : vErr) (cond : bool) (inner : error) (bit : N) : vErr :=
    if cond then {| Inner := Some inner; Errors := N.lor (Errors v) bit |} else v.

Definition verifyExp (exp now : Z) (required : bool) : bool :=
    if Z.eqb exp 0 then negb required else Z.leb now exp.
Definition verifyIat (iat now : Z) (required : bool) : bool :=
    if Z.eqb iat 0 then negb required else Z.leb iat now.
Definition verifyNbf (nbf now : Z) (required : bool) : bool :=
    if Z.eqb nbf 0 then negb required else Z.leb nbf now.

  (** [func (c StandardClaims) Valid() error]. *)
Definition StandardClaims_Valid (now : Z) (c : StandardClaims) : vErr :=
    let v := {| Inner := None; Errors := 0 |} in
    let v := flag v (negb (verifyExp (ExpiresAt c) now false))
                  (ErrTokenExpired (Unix_Sub now (ExpiresAt c))) ValidationErrorExpired in
    let v := flag v (negb (verifyIat (IssuedAt c) now false))
                  (Errorf "Token used before issued") ValidationErrorIssuedAt in
    flag v (negb (verifyNbf (NotBefore c) now false))
         (Errorf "token is not valid yet") ValidationErrorNotValidYet.

  (** [strings.Split(s, sep)] at a one-byte separator. *)
Fixpoint Split (sep : ascii) (s : string) : list string :=
    match s with
    | EmptyString => [EmptyString]
    | String c rest =>
        if Ascii.eqb c sep then EmptyString :: Split sep rest
        else match Split sep rest with
             | x :: xs => String c x :: xs
             | [] => [String c EmptyString]
             end
    end.

Definition lower (c : ascii) : ascii :=
    let n := nat_of_ascii c in
    if (Nat.leb 65 n && Nat.leb n 90)%bool then ascii_of_nat (n + 32) else c.

Fixpoint ToLower (s : string) : string :=
    match s with
    | EmptyString => EmptyString
    | String c rest => String (lower c) (ToLower rest)
    end.

Definition HasPrefix (s p : string) : bool := String.prefix p s.

Inductive Hash : Type := SHA256 | SHA384 | SHA512.

  (** The primitives under the library. *)
Class Wire (Claims : Type) : Type := {
    EncodeSegment : bytes -> string;            (* base64url, unpadded *)
    DecodeSegment : string -> result bytes;
    Marshal_Header : Header -> bytes;           (* encoding/json *)
    Unmarshal_Header : bytes -> result Header;
    Marshal_Claims : Claims -> bytes;
    Unmarshal_Claims : bytes -> result Claims;
    HMAC : Hash -> bytes -> bytes -> bytes;     (* hmac.New(h, key) over a message *)
    TimeFunc : Z                                (* jwt.TimeFunc().Unix() *)
  }.

Section Token.
Context {Claims : Type} `{Wire Claims}.
    (** The [Valid() error] method of the claims type. *)
Variable Valid_Claims : Z -> Claims -> vErr.

Record Token : Type := {
      Raw : string;
      Method : option SigningMethod;
      Token_Header : Header;
      Token_Claims : Claims;
      Signature : string;
      Valid : bool
    }.

Definition hash_of (m : SigningMethod) : option Hash :=
      match m with
      | HS256 => Some SHA256 | HS384 => Some SHA384 | HS512 => Some SHA512
      | _ => None
      end.

    (** [Method.Sign(signingString, key)] at a [[]byte] key. *)
Definition Sign (m : SigningMethod) (signingString : string) (key : bytes)
      : result string :=
      match hash_of m with
      | Some h => Ok (EncodeSegment (HMAC h key signingString))
      | None => match m with
                | none => Err NoneSignatureTypeDisallowedError
                | _ => Err ErrInvalidKeyType
                end
      end.

    (** [Method.Verify(signingString, signature, key)] at a [[]byte] key. *)
Definition Verify (m : SigningMethod) (signingString signature : string)
               (key : bytes) : option error :=
      match hash_of m with
      | Some h =>
          match DecodeSegment signature with
          | Err err => Some err
          | Ok sig => if String.eqb sig (HMAC h key signingString) then None
                      else Some ErrSignatureInvalid
          end
      | None => match m with
                | none => Some NoneSignatureTypeDisallowedError
                | _ => Some ErrInvalidKeyType
                end
      end.

    (** [jwt.NewWithClaims(method, claims)]. *)
Definition NewWithClaims (method : SigningMethod) (claims : Claims) : Token :=
      {| Raw := "";
         Method := Some method;
         Token_Header := [("typ", JString "JWT"); ("alg", JString (Alg method))];
         Token_Claims := claims;
         Signature := "";
         Valid := false |}.

Definition SigningString (t : Token) : string :=
      EncodeSegment (Marshal_Header (Token_Header t)) ++ "."
      ++ EncodeSegment (Marshal_Claims (Token_Claims t)).

    (** [token.SignedString(key)]. *)
Definition SignedString (t : Token) (key : bytes) : result string :=
      let sstr := SigningString t in
      match Method t with
      | None => Err ErrInvalidKeyType
      | Some m =>
          match Sign m sstr key with
          | Err err => Err err
          | Ok sig => Ok (sstr ++ "." ++ sig)
          end
      end.

Definition with_Header (t : Token) (h : Header) : Token :=
      {| Raw := Raw t; Method := Method t; Token_Header := h;
         Token_Claims := Token_Claims t; Signature := Signature t; Valid := Valid t |}.
Definition with_Claims (t : Token) (c : Claims) : Token :=
      {| Raw := Raw t; Method := Method t; Token_Header := Token_Header t;
         Token_Claims := c; Signature := Signature t; Valid := Valid t |}.
Definition with_Method (t : Token) (m : SigningMethod) : Token :=
      {| Raw := Raw t; Method := Some m; Token_Header := Token_Header t;
         Token_Claims := Token_Claims t; Signature := Signature t; Valid := Valid t |}.
Definition with_Signature (t : Token) (s : string) : Token :=
      {| Raw := Raw t; Method := Method t; Token_Header := Token_Header t;
         Token_Claims := Token_Claims t; Signature := s; Valid := Valid t |}.
Definition with_Valid (t : Token) : Token :=
      {| Raw := Raw t; Method := Method t; Token_Header := Token_Header t;
         Token_Claims := Token_Claims t; Signature := Signature t; Valid := true |}.

Definition malformed (inner : error) : error :=
      ValidationError (Some inner) "" ValidationErrorMalformed.

    (** [jwt.ParseWithClaims(tokenString, claims, keyFunc)]: the token (nil
        only when the segment count is wrong) and the error. *)
Definition ParseWithClaims (tokenString : string) (claims : Claims)
               (keyFunc : Token -> result bytes) : option Token * option error :=
      match Split "." tokenString with
      | [part0; part1; part2] =>
          let token :=
            {| Raw := tokenString; Method := None; Token_Header := [];
               Token_Claims := claims; Signature := ""; Valid := false |} in
          match DecodeSegment part0 with
          | Err err =>
              if HasPrefix (ToLower tokenString) "bearer "
              then (Some token,
                    Some (ValidationError None
                            "tokenstring should not contain 'bearer '"
                            ValidationErrorMalformed))
              else (Some token, Some (malformed err))
          | Ok headerBytes =>
          match Unmarshal_Header headerBytes with
          | Err err => (Some token, Some (malformed err))
          | Ok header =>
          let token := with_Header token header in
          match DecodeSegment part1 with
          | Err err => (Some token, Some (malformed err))
          | Ok claimBytes =>
          match Unmarshal_Claims claimBytes with
          | Err err => (Some token, Some (malformed err))
          | Ok decoded =>
          let token := with_Claims token decoded in
          match header_get header "alg" with
          | Some (JString alg) =>
              match GetSigningMethod alg with
              | None =>
                  (Some token,
                   Some (ValidationError None "signing method (alg) is unavailable."
                           ValidationErrorUnverifiable))
              | Some method =>
                  let token := with_Method token method in
                  match keyFunc token with
                  | Err err =>
                      (Some token,
                       Some (ValidationError (Some err) ""
                               ValidationErrorUnverifiable))
                  | Ok key =>
                      let v := Valid_Claims TimeFunc decoded in
                      let token := with_Signature token part2 in
                      let v :=
                        match Verify method (part0 ++ "." ++ part1) part2 key with
                        | Some err =>
                            {| Inner := Some err;
                               Errors := N.lor (Errors v)
                                           ValidationErrorSignatureInvalid |}
                        | None => v
                        end in
                      if N.eqb (Errors v) 0 then (Some (with_Valid token), None)
                      else (Some token,
                            Some (ValidationError (Inner v) "" (Errors v)))
                  end
              end
          | _ =>
              (Some token,
               Some (ValidationError None "signing method (alg) is unspecified."
                       ValidationErrorUnverifiable))
          end end end end end
      | _ =>
          (None,
           Some (ValidationError None "token contains an invalid number of segments"
                   ValidationErrorMalformed))
      end.

End Token.

End Jwt.

(** ** [crypto/hmac]

    The construction of [hmac.New(h, key)] over a hash [h] of block size
    [blocksize]: a key longer than a block is hashed first, the key is
    copied into a block of zero bytes, and the two pads are that block
    xor-ed with 0x36 and 0x5c. *)

Module Hmac.

Fixpoint zeros (n : nat) : bytes :=
  match n with
  | O => EmptyString
  | S k => String zero (zeros k)
  end.

Definition xor_byte (c : N) (b : ascii) : ascii :=
  ascii_of_N (N.lxor (N_of_ascii b) c).

Fixpoint xor_with (c : N) (s : bytes) : bytes :=
  match s with
  | EmptyString => EmptyString
  | String b rest => String (xor_byte c b) (xor_with c rest)
  end.

(** The key as copied into the zeroed block. *)
Definition block_key (hash : bytes -> bytes) (blocksize : nat) (key : bytes) : bytes :=
  let key := if Nat.ltb blocksize (String.length key) then hash key else key in
  key ++ zeros (blocksize - String.length key).

(** [mac := hmac.New(h, key); mac.Write(msg); mac.Sum(nil)]. *)
Definition Sum (hash : bytes -> bytes) (blocksize : nat) (key msg : bytes) : bytes :=
  let block := block_key hash blocksize key in
  let ipad := xor_with 54 block in
  let opad := xor_with 92 block in
  hash (opad ++ hash (ipad ++ msg)).

(** [sha256.BlockSize], and [sha512.BlockSize] for SHA-384 and SHA-512. *)
Definition BlockSize (h : Jwt.Hash) : nat :=
  match h with
  | Jwt.SHA256 => 64
  | Jwt.SHA384 => 128
  | Jwt.SHA512 => 128
  end.

End Hmac.

(** ** What handlers do to the outside: responses, log lines, dispatch *)

(** [err.Error()]. *)
Definition fmt_Z (z : Z) : string := NilEmpty.string_of_int (Z.to_int z).

(** [fmtFrac] of package [time]: the [prec] low decimal digits of [v] as
    a fraction in front of [buf], trailing zeros and a bare point left out,
    and [v] without those digits. *)
Fixpoint fmtFrac (prec : nat) (v : Z) (print : bool) (buf : string) : string * Z :=
  match prec with
  | O => (if print then "." ++ buf else buf, v)
  | S rest =>
      let digit := v mod 10 in
      let print := print || negb (Z.eqb digit 0) in
      fmtFrac rest (v / 10) print
              (if print then String (ascii_of_nat (48 + Z.to_nat digit)) buf
               else buf)
  end.

(** [time.Duration.String()]. *)
Definition Duration_String (d : Z) : string :=
  let u := Z.abs d in
  let text :=
    if Z.ltb u 1000000000 then
      if Z.eqb u 0 then "0s"
      else if Z.ltb u 1000 then fmt_Z u ++ "ns"
      else if Z.ltb u 1000000 then
        let '(frac, u) :=
          fmtFrac 3 u false
                  (String (ascii_of_nat 194) (String (ascii_of_nat 181) "s")) in
        fmt_Z u ++ frac
      else
        let '(frac, u) := fmtFrac 6 u false "ms" in
        fmt_Z u ++ frac
    else
      let '(frac, u) := fmtFrac 9 u false "s" in
      let secs := fmt_Z (u mod 60) ++ frac in
      let u := u / 60 in
      if Z.ltb 0 u then
        let mins := fmt_Z (u mod 60) ++ "m" ++ secs in
        let u := u / 60 in
        if Z.ltb 0 u then fmt_Z u ++ "h" ++ mins else mins
      else secs in
  if Z.ltb d 0 then "-" ++ text else text.

Fixpoint Error_string (e : error) : string :=
  match e with
  | ErrRecordNotFound => "record not found"
  | PqError msg => msg
  | Errorf msg => msg
  | LibError _ msg => msg
  | ErrSignatureInvalid => "signature is invalid"
  | ErrInvalidKeyType => "key is of invalid type"
  | NoneSignatureTypeDisallowedError => "'none' signature type is not allowed"
  | ErrTokenExpired by_ => "token is expired by " ++ Duration_String by_
  | ValidationError inner text _ =>
      match inner with
      | Some i => Error_string i
      | None => if String.eqb text "" then "token is invalid" else text
      end
  end.

Definition StatusUnauthorized : Z := 401.
Definition StatusInternalServerError : Z := 500.

(** ** Package data: the token handlers *)

Record usernameAndPassword : Type := {
  Login_Username : string;
  Password : string
}.

Record DuetClaims : Type := { StandardClaims : Jwt.StandardClaims }.

Definition DuetClaims_zero : DuetClaims :=
  {| StandardClaims :=
       {| Jwt.Audience := ""; Jwt.ExpiresAt := 0; Jwt.Id := ""; Jwt.IssuedAt := 0;
          Jwt.Issuer := ""; Jwt.NotBefore := 0; Jwt.Subject := "" |} |}.

(** [DuetClaims] embeds [jwt.StandardClaims]: its [Valid] is the promoted one. *)
Definition DuetClaims_Valid (now : Z) (c : DuetClaims) : Jwt.vErr :=
  Jwt.StandardClaims_Valid now (StandardClaims c).

Definition tokenSecret : bytes := "someSecret".

(** What a REST handler does, in order. *)
Inductive RestEffect : Type :=
| log_Printf (line : string)
| rest_Error (msg : string) (code : Z)
| WriteJson (object : list (string * string)).

Definition newline : string := String (ascii_of_nat 10) EmptyString.

Section TokenHandlers.
Context `{Jwt.Wire DuetClaims}.

  (** [func ServeLogin]; [payload] is what [r.DecodeJsonPayload] gives. *)
Definition ServeLogin (payload : result usernameAndPassword) : list RestEffect :=
    match payload with
    | Err err => [rest_Error (Error_string err) StatusInternalServerError]
    | Ok userAndPass =>
        let logged :=
          log_Printf ("Username: " ++ Login_Username userAndPass ++ ", Password: "
                      ++ Password userAndPass ++ newline) in
        let token :=
          Jwt.NewWithClaims Jwt.HS256
            {| StandardClaims :=
                 {| Jwt.Audience := "https://api.helloduet.com";
                    Jwt.ExpiresAt := 0; Jwt.Id := ""; Jwt.IssuedAt := 0;
                    Jwt.Issuer := "Duet"; Jwt.NotBefore := 0;
                    Jwt.Subject := Login_Username userAndPass |} |} in
        match Jwt.SignedString token tokenSecret with
        | Err err => [logged; rest_Error (Error_string err) StatusInternalServerError]
        | Ok tokenString => [logged; WriteJson [("token", tokenString)]]
        end
    end.

  (** The key function [VerifyToken] hands to the parser. The parser sets
      [Method] before it calls; on a nil method the Go code would panic. *)
Definition VerifyToken_keyFunc (token : @Jwt.Token DuetClaims) : result bytes :=
    match Jwt.Method token with
    | Some method =>
        if negb (String.eqb (Jwt.Alg method) (Jwt.Alg Jwt.HS256))
        then Err (Errorf ("Unexpected signing method: "
                          ++ Jwt.show (Jwt.header_get (Jwt.Token_Header token) "alg")))
        else Ok tokenSecret
    | None => Err (LibError "runtime" "invalid memory address or nil pointer dereference")
    end.

  (** [func VerifyToken]: the log line it writes, the claims and the error. *)
Definition VerifyToken (tokenString : string)
    : list RestEffect * (option DuetClaims * option error) :=
    let '(token, err) :=
      Jwt.ParseWithClaims DuetClaims_Valid tokenString DuetClaims_zero
        VerifyToken_keyFunc in
    let logged := [log_Printf ("Verifying token " ++ tokenString ++ newline)] in
    match err with
    | Some err => (logged, (None, Some err))
    | None =>
        match token with
        | Some token =>
            if Jwt.Valid token then (logged, (Some (Jwt.Token_Claims token), None))
            else (logged, (None, Some (Errorf "Token could not be parsed")))
        | None => (logged, (None, Some (Errorf "Token could not be parsed")))
        end
    end.

End TokenHandlers.

(** ** Package main: the gate in front of the GraphQL handler *)

(** [context.Context]: a deadline and the values attached. *)
Record Context : Type := {
  Deadline : option Z;
  Values : list (string * uint64)
}.

Definition context_Background : Context := {| Deadline := None; Values := [] |}.

(** [context.WithTimeout(parent, d)] at clock reading [now]. *)
Definition context_WithTimeout (parent : Context) (now d : Z) : Context :=
  {| Deadline := match Deadline parent with
                 | Some p => Some (Z.min p (now + d))
                 | None => Some (now + d)
                 end;
     Values := Values parent |}.

Definition context_WithValue (parent : Context) (key : string) (val : uint64)
  : Context :=
  {| Deadline := Deadline parent; Values := (key, val) :: Values parent |}.

Definition context_Value (ctx : Context) (key : string) : option uint64 :=
  match find (fun p => String.eqb (fst p) key) (Values ctx) with
  | Some p => Some (snd p)
  | None => None
  end.

(** The [http.Request] and the helpers of package [data] the gate calls,
    declared in files other than the two at hand. [AuthUserId] also tells
    how long the call took, in milliseconds. *)
Class GateEnv : Type := {
  Request : Type;
  GetBearerToken : Request -> result string;
  AuthUserId : string -> result uint64 * Z;
  UserIdKey : string
}.

Section Gate.
Context `{GateEnv}.

  (** What the gate does, in order; [ContextHandler] is the call of the
      wrapped GraphQL handler, with the clock reading at the call. *)
Inductive GateEffect : Type :=
  | gate_log_Printf (line : string)
  | http_Error (body : string) (code : Z)
  | ContextHandler (ctx : Context) (r : Request) (clock : Z)
  | cancel.

  (** The handler function bound to [authGraphqlHandler], entered at clock
      reading [now] (milliseconds). *)
Definition authGraphqlHandler (now : Z) (r : Request) : list GateEffect :=
    match GetBearerToken r with
    | Err err => [http_Error (Error_string err) StatusUnauthorized]
    | Ok token =>
        let ctx := context_WithTimeout context_Background now 500 in
        let '(auth, took) := AuthUserId token in
        match auth with
        | Err err =>
            [gate_log_Printf ("Error verifying token: " ++ Error_string err);
             http_Error "Invalid token" StatusUnauthorized;
             cancel]
        | Ok userId =>
            let ctx := context_WithValue ctx UserIdKey userId in
            [ContextHandler ctx r (now + took); cancel]
        end
    end.

End Gate.

(** ** [func (db gormDB) Close() error]

    [gormDB] embeds [*gorm.DB] and declares a [Close] of its own. A
    selector [x.f] denotes the method of that name at the shallowest depth
    of embedding, so what the body [return db.Close()] calls is decided by
    the method sets below. *)

Inductive TypeName : Type := T_gormDB | T_gorm_DB.

(** Methods declared with the type as receiver. *)
Definition declared (t : TypeName) : list string :=
  match t with
  | T_gormDB =>
      ["Close"; "GetTask"; "GetTasks"; "AddTask"; "DeleteTask"; "UpdateTask";
       "CreateUser"; "GetUserById"; "GetUserByUsername"; "AddAction";
       "DeleteAction"]
  | T_gorm_DB =>
      ["Close"; "Where"; "First"; "Find"; "Preload"; "Create"; "Delete";
       "Model"; "Updates"; "Related"; "AutoMigrate"]
  end.

(** Types embedded in the struct. *)
Definition embedded (t : TypeName) : list TypeName :=
  match t with
  | T_gormDB => [T_gorm_DB]
  | T_gorm_DB => []
  end.

(** The type whose method a selector [x.f] denotes, searching the types
    of one depth before those embedded in them; two at one depth are
    ambiguous. *)
Fixpoint selector (depth : nat) (level : list TypeName) (f : string)
  : option TypeName :=
  match depth with
  | O => None
  | S deeper =>
      match filter (fun t => existsb (String.eqb f) (declared t)) level with
      | [t] => Some t
      | [] => selector deeper (flat_map embedded level) f
      | _ => None
      end
  end.

(** How a call ends: it returns, or the goroutine stack is exhausted
    (a selector that denotes nothing does not compile). *)
Inductive CallOutcome : Type :=
| Returns (err : option error)
| StackOverflow
| NoSuchMethod.

Section Close.
  (** What closing the connection under [*gorm.DB] returns. *)
Variable sql_Close : gormDB -> option error.

  (** A call of the [Close] method of type [recv], with [frames] stack
      frames left. *)
Fixpoint call_Close (frames : nat) (recv : TypeName) (db : gormDB) : CallOutcome :=
    match frames with
    | O => StackOverflow
    | S rest =>
        match recv with
        | T_gorm_DB => Returns (sql_Close db)
        | T_gormDB =>
            (* return db.Close(), with db of type gormDB *)
            match selector 2 [T_gormDB] "Close" with
            | Some callee => call_Close rest callee db
            | None => NoSuchMethod
            end
        end
    end.

Definition Close (frames : nat) (db : gormDB) : CallOutcome :=
    call_Close frames T_gormDB db.

End Close.

(** ** The other methods of [gormDB] and the [/verify] handler *)

Definition User_zero : User :=
  {| User_Id := 0%N; User_CreatedAt := 0; User_UpdatedAt := 0;
     User_DeletedAt := None; Username := ""; HashedPassword := ""; Tasks := [] |}.

Definition set_User_Id (u : User) (id : uint64) : User :=
  {| User_Id := id; User_CreatedAt := User_CreatedAt u;
     User_UpdatedAt := User_UpdatedAt u; User_DeletedAt := User_DeletedAt u;
     Username := Username u; HashedPassword := HashedPassword u;
     Tasks := Tasks u |}.

Definition set_Username (u : User) (name : string) : User :=
  {| User_Id := User_Id u; User_CreatedAt := User_CreatedAt u;
     User_UpdatedAt := User_UpdatedAt u; User_DeletedAt := User_DeletedAt u;
     Username := name; HashedPassword := HashedPassword u;
     Tasks := Tasks u |}.

Definition set_Tasks (u : User) (ts : list Task) : User :=
  {| User_Id := User_Id u; User_CreatedAt := User_CreatedAt u;
     User_UpdatedAt := User_UpdatedAt u; User_DeletedAt := User_DeletedAt u;
     Username := Username u; HashedPassword := HashedPassword u;
     Tasks := ts |}.

(** [func (db gormDB) GetUserById]. The struct that carries the condition
    is the one the row is read into; its [Tasks], an association, stays as
    the literal has it. *)
Definition GetUserById (db : gormDB) (id : uint64) : option User * option error :=
  let user := set_User_Id User_zero id in
  match First (users db) (whereStruct (fields user)) user with
  | Err err => (None, Some err)
  | Ok row => (Some (set_Tasks row (Tasks user)), None)
  end.

(** [func (db gormDB) GetUserByUsername]. *)
Definition GetUserByUsername (db : gormDB) (username : string)
  : option User * option error :=
  let user := set_Username User_zero username in
  match First (users db) (whereStruct (fields user)) user with
  | Err err => (None, Some err)
  | Ok row => (Some (set_Tasks row (Tasks user)), None)
  end.

(** [func (db gormDB) DeleteAction]. *)
Definition DeleteAction (db : gormDB) (id : string) (userId : uint64)
  : gormDB * option error :=
  let action := set_Action_Id Action_zero id in
  match First (actions db) (whereStruct (fields action)) action with
  | Err err => (db, Some err)
  | Ok action =>
      let '(task, err) := GetTask db (TaskId action) userId None in
      match err with
      | Some err => (db, Some err)
      | None =>
          match task with
          | None => (db, Some (Errorf ("Not authorized to delete action " ++ id)))
          | Some _ =>
              let result := Delete (NowFunc db) (actions db) [] action in
              (with_actions db (Table result), Error result)
          end
      end
  end.

(** [strings.TrimPrefix(s, prefix)]. *)
Fixpoint drop (n : nat) (s : string) : string :=
  match n, s with
  | O, _ => s
  | S k, String _ rest => drop k rest
  | S _, EmptyString => EmptyString
  end.

Definition TrimPrefix (s prefix : string) : string :=
  if Jwt.HasPrefix s prefix then drop (String.length prefix) s else s.

(** What [ServeVerifyToken] does: the effects of a REST handler, or the
    claims written as the JSON answer. *)
Inductive VerifyEffect : Type :=
| rest_effect (e : RestEffect)
| WriteJson_claims (claims : DuetClaims).

(** [func ServeVerifyToken]; [authorization] is what
    [r.Header.Get("Authorization")] gives (empty when the header is absent). *)
Definition ServeVerifyToken `{Jwt.Wire DuetClaims} (authorization : string)
  : list VerifyEffect :=
  if negb (Jwt.HasPrefix authorization "Bearer ")
  then [rest_effect (rest_Error "Invalid authentication method" StatusUnauthorized)]
  else
    let tokenString := TrimPrefix authorization "Bearer " in
    let '(logged, (claims, err)) := VerifyToken tokenString in
    (map rest_effect logged
     ++ match err with
        | Some err => [rest_effect (rest_Error (Error_string err) StatusUnauthorized)]
        | None =>
            match claims with
            | None => [rest_effect (rest_Error "Claims are nil"
                                      StatusInternalServerError)]
            | Some claims => [WriteJson_claims claims]
            end
        end)%list.

(** ** Notions the statements use *)

(** The id [Create] gives a new task row. *)
Definition new_task_id (db : gormDB) (task : Task) : string :=
  if isBlank (VString (Id task)) then uuid_generate_v4 db (uuid_drawn db)
  else Id task.

(** No ['.'] in a segment. *)
Fixpoint no_dot (s : string) : bool :=
  match s with
  | EmptyString => true
  | String c rest => negb (Ascii.eqb c ".") && no_dot rest
  end.

(** Does a [*ValidationError] carry the bit? *)
Definition has_flag (e : error) (bit : N) : bool :=
  match e with
  | ValidationError _ _ errs => negb (N.eqb (N.land errs bit) 0)
  | _ => false
  end.

(** The claims [ServeLogin] signs for a username. *)
Definition login_claims (username : string) : DuetClaims :=
  {| StandardClaims :=
       {| Jwt.Audience := "https://api.helloduet.com"; Jwt.ExpiresAt := 0;
          Jwt.Id := ""; Jwt.IssuedAt := 0; Jwt.Issuer := "Duet";
          Jwt.NotBefore := 0; Jwt.Subject := username |} |}.

(** The line [ServeLogin] logs. *)
Definition login_line (userAndPass : usernameAndPassword) : RestEffect :=
  log_Printf ("Username: " ++ Login_Username userAndPass ++ ", Password: "
              ++ Password userAndPass ++ newline).

(** The WHERE of [GetTask]. *)
Definition GetTask_conditions (taskId : string) (userId : uint64)
           (kind : option TaskKind) : Conditions :=
  ([("id", VString taskId); ("user_id", VUint userId)]
   ++ match kind with
      | Some k => [("kind", VInt (TaskKind_int k))]
      | None => []
      end)%list.

(** The codec carries a byte string: the segment written for it has no
    ['.'] and reads back as the bytes. *)
Definition carried `{Jwt.Wire DuetClaims} (b : bytes) : Prop :=
  Jwt.DecodeSegment (Jwt.EncodeSegment b) = Ok b /\
  no_dot (Jwt.EncodeSegment b) = true.

(** The codec carries the token [ServeLogin] makes for a username: its
    header and claims survive the JSON codec, and they and the tag survive
    the segment codec. *)
Definition wire_carries `{Jwt.Wire DuetClaims} (username : string) : Prop :=
  let token := Jwt.NewWithClaims Jwt.HS256 (login_claims username) in
  Jwt.Unmarshal_Header (Jwt.Marshal_Header (Jwt.Token_Header token))
  = Ok (Jwt.Token_Header token) /\
  Jwt.Unmarshal_Claims (Jwt.Marshal_Claims (login_claims username))
  = Ok (login_claims username) /\
  carried (Jwt.Marshal_Header (Jwt.Token_Header token)) /\
  carried (Jwt.Marshal_Claims (login_claims username)) /\
  carried (Jwt.HMAC Jwt.SHA256 tokenSecret (Jwt.SigningString token)).

(** The deadline as the design document reads it: when verifying and
    resolving the user take longer than the 500 ms, the wrapped handler is
    not called and the answer is an error other than the 401 of a failed
    authentication. *)
Definition aborts_on_deadline (G : GateEnv) : Prop :=
  forall (now : Z) (r : Request) (token : string) (auth : result uint64) (took : Z),
    GetBearerToken r = Ok token ->
    AuthUserId token = (auth, took) ->
    500 < took ->
    (forall ctx r' clock,
        ~ In (ContextHandler ctx r' clock) (authGraphqlHandler now r)) /\
    (exists body code,
        In (http_Error body code) (authGraphqlHandler now r) /\
        code <> StatusUnauthorized).

(** ** Sample instances

    Small, computable stand-ins for the primitives, and sample stores, on
    which the definitions above are run. They are not the libraries: a
    segment is written in hexadecimal, an object as its fields in order, and
    the tag of a message is the key followed by the message. *)

Module Sample.

Definition hex_digit (n : nat) : ascii :=
    nth n ["0"; "1"; "2"; "3"; "4"; "5"; "6"; "7"; "8"; "9";
           "a"; "b"; "c"; "d"; "e"; "f"]%char "0"%char.

Definition hex_value (c : ascii) : option nat :=
    let n := nat_of_ascii c in
    if (Nat.leb 48 n && Nat.leb n 57)%bool then Some (n - 48)%nat
    else if (Nat.leb 97 n && Nat.leb n 102)%bool then Some (n - 87)%nat
    else None.

Fixpoint hex_encode (s : string) : string :=
    match s with
    | EmptyString => EmptyString
    | String c rest =>
        let n := nat_of_ascii c in
        String (hex_digit (n / 16)) (String (hex_digit (n mod 16)) (hex_encode rest))
    end.

Fixpoint hex_decode (s : string) : result bytes :=
    match s with
    | EmptyString => Ok EmptyString
    | String a (String b rest) =>
        match hex_value a, hex_value b, hex_decode rest with
        | Some x, Some y, Ok t => Ok (String (ascii_of_nat (16 * x + y)) t)
        | _, _, _ => Err (LibError "base64" "illegal base64 data")
        end
    | String _ EmptyString => Err (LibError "base64" "illegal base64 data")
    end.

Definition write_header (h : Jwt.Header) : bytes :=
    String.concat ";"
      (map (fun p => match snd p with
                     | Jwt.JString s => fst p ++ "=" ++ s
                     | Jwt.JOther raw => fst p ++ "#" ++ raw
                     end) h).

Fixpoint read_fields (fs : list string) : result Jwt.Header :=
    match fs with
    | [] => Ok []
    | f :: rest =>
        match Jwt.Split "=" f, read_fields rest with
        | [k; v], Ok h => Ok ((k, Jwt.JString v) :: h)
        | _, _ => Err (LibError "json" "invalid character")
        end
    end.

Definition read_header (b : bytes) : result Jwt.Header :=
    read_fields (Jwt.Split ";" b).

Definition write_claims (c : DuetClaims) : bytes :=
    let s := StandardClaims c in
    Jwt.Subject s ++ newline ++ Jwt.Issuer s ++ newline ++ Jwt.Audience s
    ++ newline ++ fmt_Z (Jwt.ExpiresAt s).

Definition read_claims (b : bytes) : result DuetClaims :=
    match Jwt.Split (ascii_of_nat 10) b with
    | [sub; iss; aud; exp] =>
        Ok {| StandardClaims :=
                {| Jwt.Audience := aud;
                   Jwt.ExpiresAt := if String.eqb exp "0" then 0 else 1;
                   Jwt.Id := ""; Jwt.IssuedAt := 0; Jwt.Issuer := iss;
                   Jwt.NotBefore := 0; Jwt.Subject := sub |} |}
    | _ => Err (LibError "json" "unexpected end of JSON input")
    end.

Definition tag (h : Jwt.Hash) (key msg : bytes) : bytes := key ++ "/" ++ msg.

Definition wire : Jwt.Wire DuetClaims :=
    {| Jwt.EncodeSegment := hex_encode;
       Jwt.DecodeSegment := hex_decode;
       Jwt.Marshal_Header := write_header;
       Jwt.Unmarshal_Header := read_header;
       Jwt.Marshal_Claims := write_claims;
       Jwt.Unmarshal_Claims := read_claims;
       Jwt.HMAC := tag;
       Jwt.TimeFunc := 1700000000 |}.

Definition bcrypt : Bcrypt :=
    {| GenerateFromPassword := fun password cost =>
         if Z.ltb 31 cost then Err (LibError "bcrypt" "cost outside allowed range")
         else Ok ("$2a$" ++ fmt_Z cost ++ "$" ++ hex_encode password);
       bcryptCost := 10 |}.

  (** A request is the value of its [Authorization] header. *)
Definition gate (slow : Z) : GateEnv :=
    {| Request := string;
       GetBearerToken := fun r =>
         if Jwt.HasPrefix r "Bearer "
         then Ok (String.substring 7 (String.length r - 7) r)
         else Err (Errorf "Invalid authentication method");
       AuthUserId := fun token =>
         if String.eqb token "alice" then (Ok 1%N, slow)
         else (Err ErrRecordNotFound, slow);
       UserIdKey := "userId" |}.

Definition empty : gormDB :=
    {| tasks := []; users := []; actions := []; NowFunc := 1700000000;
       uuid_generate_v4 := fun n => "uuid-" ++ fmt_d (N.of_nat n);
       uuid_drawn := 0; users_id_seq := 0%N |}.

Definition task (id title : string) (owner : uint64) : Task :=
    {| CreatedAt := 1600000000; UpdatedAt := 1600000000; DeletedAt := None;
       Id := id; Kind := TaskEnum; Title := title; Done := false; UserId := owner;
       Actions := []; StartDate := None; EndDate := None; Task_Interval := Daily;
       Frequency := 0 |}.

  (** Users 1 and 2; two tasks of user 1, one of user 2. *)
Definition store : gormDB :=
    with_tasks empty
      [task "t1" "Buy milk" 1%N; task "t2" "Run" 1%N; task "t3" "Read" 2%N].

  (** A token written by hand: the header names [alg], the claims are
      those of a login of [username], the tag is made under [key]. *)
Definition forge (alg username : string) (key : bytes) : string :=
    let h := hex_encode (write_header [("typ", Jwt.JString "JWT");
                                       ("alg", Jwt.JString alg)]) in
    let c := hex_encode (write_claims (login_claims username)) in
    h ++ "." ++ c ++ "." ++ hex_encode (tag Jwt.SHA256 key (h ++ "." ++ c)).

End Sample.

(** The effects of the gate that answer the request: an error response,
    or the call of the wrapped handler. *)
Definition is_answer `{GateEnv} (e : GateEffect) : bool :=
  match e with
  | http_Error _ _ => true
  | ContextHandler _ _ _ => true
  | _ => false
  end.

(** The design document on a foreign secret, as it words it: every
    token signed under a key other than the service's is refused. *)
Definition refuses_every_other_secret (W : Jwt.Wire DuetClaims) : Prop :=
  forall (claims : DuetClaims) (key : bytes) (tokenString : string),
    key <> tokenSecret ->
    Jwt.SignedString (Jwt.NewWithClaims Jwt.HS256 claims) key = Ok tokenString ->
    exists err, snd (VerifyToken tokenString) = (None, Some err).

(** The id [Create] gives a new action row. *)
Definition new_action_id (db : gormDB) (action : Action) : string :=
  if isBlank (VString (Action_Id action)) then uuid_generate_v4 db (uuid_drawn db)
  else Action_Id action.

(** A store with users and actions, for the statements about them. *)
Module Fixture.

Definition user (id : uint64) (name : string) : User :=
  {| User_Id := id; User_CreatedAt := 1600000000; User_UpdatedAt := 1600000000;
     User_DeletedAt := None; Username := name; HashedPassword := "$2a$10$00";
     Tasks := [] |}.

Definition action (id taskId : string) : Action :=
  {| Action_Id := id; Action_Kind := ActionProgress; When := Some 1650000000;
     TaskId := taskId |}.

(** Users alice (1) and bob (2); tasks t1, t2 of alice and t3 of bob;
    action a1 on t1 and a2 on t3. *)
Definition store : gormDB :=
  {| tasks := tasks Sample.store;
     users := [user 1%N "alice"; user 2%N "bob"];
     actions := [action "a1" "t1"; action "a2" "t3"];
     NowFunc := 1700000000;
     uuid_generate_v4 := uuid_generate_v4 Sample.empty;
     uuid_drawn := 0;
     users_id_seq := 2%N |}.

(** A token with the header and tag of a login token of alice, whose
    claims carry an expiry long past. *)
Definition expired_token : string :=
  let h := Sample.hex_encode
             (Sample.write_header [("typ", Jwt.JString "JWT");
                                   ("alg", Jwt.JString "HS256")]) in
  let c := Sample.hex_encode
             (Sample.write_claims
                {| StandardClaims :=
                     {| Jwt.Audience := "https://api.helloduet.com";
                        Jwt.ExpiresAt := 1; Jwt.Id := ""; Jwt.IssuedAt := 0;
                        Jwt.Issuer := "Duet"; Jwt.NotBefore := 0;
                        Jwt.Subject := "alice" |} |}) in
  h ++ "." ++ c ++ "."
  ++ Sample.hex_encode (Sample.tag Jwt.SHA256 tokenSecret (h ++ "." ++ c)).

End Fixture.

(** The codec of [Sample] with the MAC made as [crypto/hmac] makes it,
    over a stand-in for the hash (a 32-bit FNV-1a sum, written as four
    bytes). *)
Module Keyed.

Fixpoint fnv1a (acc : N) (s : bytes) : N :=
  match s with
  | EmptyString => acc
  | String b rest =>
      fnv1a (N.modulo (N.lxor acc (N_of_ascii b) * 16777619) 4294967296) rest
  end.

Definition digest (s : bytes) : bytes :=
  let h := fnv1a 2166136261 s in
  String (ascii_of_N (N.modulo (N.div h 16777216) 256))
    (String (ascii_of_N (N.modulo (N.div h 65536) 256))
       (String (ascii_of_N (N.modulo (N.div h 256) 256))
          (String (ascii_of_N (N.modulo h 256)) EmptyString))).

Definition wire : Jwt.Wire DuetClaims :=
  {| Jwt.EncodeSegment := Sample.hex_encode;
     Jwt.DecodeSegment := Sample.hex_decode;
     Jwt.Marshal_Header := Sample.write_header;
     Jwt.Unmarshal_Header := Sample.read_header;
     Jwt.Marshal_Claims := Sample.write_claims;
     Jwt.Unmarshal_Claims := Sample.read_claims;
     Jwt.HMAC := fun h key msg => Hmac.Sum digest (Hmac.BlockSize h) key msg;
     Jwt.TimeFunc := 1700000000 |}.

(** The service's secret followed by one zero byte. *)
Definition padded_secret : bytes := tokenSecret ++ String zero EmptyString.

End Keyed.

(** * Properties *)

(** ** The store *)

Lemma NoDup_map_inj {A B : Type} (f : A -> B) (l : list A) (a b : A) :
  NoDup (map f l) -> In a l -> In b l -> f a = f b -> a = b.
Proof.
  induction l as [|x l IH]; simpl; intros ND Ha Hb E.
  - contradiction.
  - inversion ND as [|y ys Hnotin ND']; subst.
    destruct Ha as [<-|Ha], Hb as [<-|Hb]; auto.
    + exfalso. apply Hnotin. rewrite E. now apply in_map.
    + exfalso. apply Hnotin. rewrite <- E. now apply in_map.
Qed.

Lemma least_nil_iff {A : Type} `{Model A} (rows : list A) :
  least rows = None <-> rows = [].
Proof.
  destruct rows as [|a rest]; simpl; [tauto|].
  split; [|discriminate].
  destruct (least rest); [destruct (value_leb _ _)|]; discriminate.
Qed.

Lemma least_In {A : Type} `{Model A} (rows : list A) (a : A) :
  least rows = Some a -> In a rows.
Proof.
  revert a. induction rows as [|x rest IH]; simpl; intros a E; [discriminate|].
  destruct (least rest) as [b|].
  - destruct (value_leb _ _); inversion E; subst; auto.
  - inversion E; auto.
Qed.

Lemma filter_nil_iff {A : Type} (p : A -> bool) (l : list A) :
  filter p l = [] <-> forall a, In a l -> p a = false.
Proof.
  induction l as [|x l IH]; simpl.
  - split; [contradiction|reflexivity].
  - destruct (p x) eqn:E.
    + split; [discriminate|]. intros Hall. rewrite (Hall x) in E by auto. discriminate.
    + rewrite IH. split.
      * intros Hall a [<-|Ha]; auto.
      * intros Hall a Ha. apply Hall. auto.
Qed.

(** What the WHERE of [GetTask] selects. *)
Lemma selected_GetTask (taskId : string) (userId : uint64) (more : Conditions)
      (t : Task) :
  selected Task_zero
    (whereMap ([("id", VString taskId); ("user_id", VUint userId)] ++ more)%list) t
  = true ->
  DeletedAt t = None /\ Id t = taskId /\ UserId t = userId.
Proof.
  unfold selected, visible, whereMap. cbn.
  destruct (DeletedAt t); cbn; [discriminate|].
  intros E.
  apply andb_prop in E as [E1 E]. apply andb_prop in E as [E2 _].
  apply String.eqb_eq in E1. apply N.eqb_eq in E2. auto.
Qed.

Lemma selected_GetTask_exact (taskId : string) (userId : uint64) (t : Task) :
  selected Task_zero
    (whereMap [("id", VString taskId); ("user_id", VUint userId)]) t
  = match DeletedAt t with
    | None => String.eqb (Id t) taskId && N.eqb (UserId t) userId
    | Some _ => false
    end.
Proof.
  unfold selected, visible, whereMap. cbn.
  destruct (DeletedAt t); cbn; [reflexivity|].
  now rewrite andb_true_r.
Qed.

Lemma GetTask_unfold (db : gormDB) (taskId : string) (userId : uint64)
      (kind : option TaskKind) :
  GetTask db taskId userId kind =
  match First (tasks db) (whereMap (GetTask_conditions taskId userId kind))
              Task_zero with
  | Err err => (None, Some err)
  | Ok task => (Some (Preload_Actions db task), None)
  end.
Proof. unfold GetTask, GetTask_conditions. destruct kind; reflexivity. Qed.

(** No visible row of that id and owner: the record is not found. *)
Lemma GetTask_not_found (db : gormDB) (taskId : string) (userId : uint64)
      (kind : option TaskKind) :
  (forall t, In t (tasks db) -> DeletedAt t = None -> Id t = taskId ->
             UserId t <> userId) ->
  GetTask db taskId userId kind = (None, Some ErrRecordNotFound).
Proof.
  intros Hnone. rewrite GetTask_unfold. unfold First.
  replace (filter _ (tasks db)) with (@nil Task); [reflexivity|].
  symmetry. apply filter_nil_iff. intros t Hin.
  destruct (selected _ _ t) eqn:E; [|reflexivity].
  unfold GetTask_conditions in E. apply selected_GetTask in E as (Hd & Hi & Hu).
  exfalso. exact (Hnone t Hin Hd Hi Hu).
Qed.

(** A task returned is a visible row of that id and owner. *)
Lemma GetTask_found (db : gormDB) (taskId : string) (userId : uint64)
      (kind : option TaskKind) (task : Task) :
  fst (GetTask db taskId userId kind) = Some task ->
  exists row, In row (tasks db) /\ DeletedAt row = None /\ Id row = taskId /\
              UserId row = userId /\ task = Preload_Actions db row.
Proof.
  rewrite GetTask_unfold. unfold First.
  destruct (least _) as [row|] eqn:E; simpl; [|discriminate].
  intros [= <-]. apply least_In in E. apply filter_In in E as [Hin Hsel].
  unfold GetTask_conditions in Hsel. apply selected_GetTask in Hsel as (Hd & Hi & Hu).
  exists row. auto.
Qed.

(** The two returns of [GetTask] go together. *)
Lemma GetTask_shape (db : gormDB) (taskId : string) (userId : uint64)
      (kind : option TaskKind) :
  (exists task, GetTask db taskId userId kind = (Some task, None)) \/
  GetTask db taskId userId kind = (None, Some ErrRecordNotFound).
Proof.
  rewrite GetTask_unfold. unfold First.
  destruct (least _); [left; eauto|right; reflexivity].
Qed.

(** C3. [GetTask(id, A)] on a task that exists but belongs to another
    user B returns the record-not-found error, and that is the very
    outcome it has on a store where no task has the id: the two cases
    cannot be told apart by the caller. *)
Theorem GetTask_not_owned_as_absent
        (db1 db2 : gormDB) (taskId : string) (userA userB : uint64)
        (kind : option TaskKind) (t : Task) :
  NoDup (map Id (tasks db1)) ->
  In t (tasks db1) -> Id t = taskId -> UserId t = userB -> userA <> userB ->
  (forall t', In t' (tasks db2) -> Id t' <> taskId) ->
  GetTask db1 taskId userA kind = (None, Some ErrRecordNotFound) /\
  GetTask db1 taskId userA kind = GetTask db2 taskId userA kind.
Proof.
  intros ND Hin Hid Hown Hneq Habsent.
  assert (E1 : GetTask db1 taskId userA kind = (None, Some ErrRecordNotFound)).
  { apply GetTask_not_found. intros t' Hin' _ Hid' Hown'.
    assert (t' = t) by (apply (NoDup_map_inj Id (tasks db1)); congruence).
    subst t'. congruence. }
  split; [exact E1|]. rewrite E1. symmetry.
  apply GetTask_not_found. intros t' Hin' _ Hid' _. exact (Habsent t' Hin' Hid').
Qed.

Lemma GetTask_not_owned_as_absent_witness :
  GetTask Sample.store "t3" 1%N None = (None, Some ErrRecordNotFound) /\
  GetTask Sample.store "t3" 1%N None = GetTask Sample.empty "t3" 1%N None.
Proof.
  apply (GetTask_not_owned_as_absent Sample.store Sample.empty "t3" 1%N 2%N None
           (Sample.task "t3" "Read" 2%N)).
  - simpl. repeat constructor; simpl; intuition discriminate.
  - simpl. auto.
  - reflexivity.
  - reflexivity.
  - discriminate.
  - simpl. contradiction.
Defined.

(** The two ways [Create] on a task ends. *)
Lemma Create_Task_cases (db : gormDB) (task : Task) :
  exists db1,
    tasks db1 = tasks db /\
    Create_Task db task =
    if keyTaken (tasks db) (VString (new_task_id db task))
    then (db1, set_stamps task (NowFunc db), Some (duplicate_key "tasks_pkey"))
    else (with_tasks db1
            (tasks db1
             ++ [set_Actions
                   (set_Id (set_stamps task (NowFunc db)) (new_task_id db task))
                   []])%list,
          set_Id (set_stamps task (NowFunc db)) (new_task_id db task), None).
Proof.
  unfold Create_Task, new_task_id.
  destruct (isBlank (VString (Id task))).
  - exists (snd (draw_uuid db)). split; reflexivity.
  - exists db. split; reflexivity.
Qed.






(** What the WHERE of [DeleteTask] selects when both the id and the user
    id are set. *)
Lemma DeleteTask_selects (taskId : string) (userId : uint64) (t : Task) :
  taskId <> "" -> userId <> 0%N ->
  selected (set_UserId (set_Id Task_zero taskId) userId)
           (whereStruct (fields (set_UserId (set_Id Task_zero taskId) userId))) t =
  match DeletedAt t with
  | None => String.eqb (Id t) taskId && N.eqb (UserId t) userId
  | Some _ => false
  end.
Proof.
  intros Hid Hu.
  apply String.eqb_neq in Hid. apply N.eqb_neq in Hu.
  unfold selected, visible, primaryCondition, primaryKey, whereStruct. cbn.
  rewrite Hid, Hu. cbn.
  destruct (DeletedAt t); cbn; [reflexivity|].
  destruct (String.eqb (Id t) taskId), (N.eqb (UserId t) userId); reflexivity.
Qed.

Lemma with_tasks_same (db : gormDB) : with_tasks db (tasks db) = db.
Proof. destruct db; reflexivity. Qed.

Lemma map_unselected {A : Type} (p : A -> bool) (f : A -> A) (l : list A) :
  (forall a, In a l -> p a = false) ->
  map (fun a => if p a then f a else a) l = l.
Proof.
  induction l as [|x l IH]; simpl; intros Hall; [reflexivity|].
  rewrite (Hall x) by auto. f_equal. apply IH. auto.
Qed.

(** With an id and a user id that are set: no visible row of that id and
    owner, no row removed, no error, and the store as it was. *)
Lemma DeleteTask_no_row (db : gormDB) (taskId : string) (userId : uint64) :
  taskId <> "" -> userId <> 0%N ->
  (forall t, In t (tasks db) -> DeletedAt t = None -> Id t = taskId ->
             UserId t <> userId) ->
  DeleteTask db taskId userId = (db, (false, None)).
Proof.
  intros Hid Hu Hnone.
  assert (Hmiss : forall t, In t (tasks db) ->
            selected (set_UserId (set_Id Task_zero taskId) userId)
              (whereStruct (fields (set_UserId (set_Id Task_zero taskId) userId))) t
            = false).
  { intros t Hin. rewrite DeleteTask_selects by assumption.
    destruct (DeletedAt t) eqn:Ed; [reflexivity|].
    destruct (String.eqb_spec (Id t) taskId) as [Ei|]; [|reflexivity].
    destruct (N.eqb_spec (UserId t) userId) as [Eu|]; [|reflexivity].
    exfalso. exact (Hnone t Hin Ed Ei Eu). }
  unfold DeleteTask, Delete. cbn [Error RowsAffected Table deletedAtOf Task_Model].
  rewrite (proj2 (filter_nil_iff _ _) Hmiss).
  rewrite (map_unselected _ _ _ Hmiss). rewrite with_tasks_same. reflexivity.
Qed.

(** With an id and a user id that are set: a visible row of that id and
    owner is removed from what the store shows, and [true] is returned; the
    rows of other ids stay. *)
Lemma DeleteTask_owned_row (db : gormDB) (taskId : string) (userId : uint64)
      (t : Task) :
  taskId <> "" -> userId <> 0%N ->
  In t (tasks db) -> DeletedAt t = None -> Id t = taskId -> UserId t = userId ->
  snd (DeleteTask db taskId userId) = (true, None) /\
  (forall kind,
      GetTask (fst (DeleteTask db taskId userId)) taskId userId kind
      = (None, Some ErrRecordNotFound)) /\
  (forall t', In t' (tasks db) -> Id t' <> taskId ->
              In t' (tasks (fst (DeleteTask db taskId userId)))).
Proof.
  intros Hid Hu Hin Hd Hi Ho.
  unfold DeleteTask, Delete. cbn [Error RowsAffected Table deletedAtOf Task_Model fst snd].
  set (hit := selected _ _).
  assert (Hhit : hit t = true).
  { unfold hit. rewrite DeleteTask_selects by assumption.
    rewrite Hd, Hi, Ho, String.eqb_refl, N.eqb_refl. reflexivity. }
  split; [|split].
  - f_equal. assert (Hfil : In t (filter hit (tasks db))) by (apply filter_In; auto).
    destruct (filter hit (tasks db)); [contradiction|]. reflexivity.
  - intros kind. apply GetTask_not_found. simpl.
    intros t' Hin' Hd' Hi' Ho'. apply in_map_iff in Hin' as (a & Ea & Ha).
    destruct (hit a) eqn:Eh.
    + subst t'. discriminate.
    + subst t'. unfold hit in Eh. rewrite DeleteTask_selects in Eh by assumption.
      rewrite Hd' in Eh. rewrite Hi', Ho', String.eqb_refl, N.eqb_refl in Eh.
      discriminate.
  - intros t' Hin' Hne. simpl. apply in_map_iff. exists t'. split; [|assumption].
    destruct (hit t') eqn:Eh; [|reflexivity].
    unfold hit in Eh. rewrite DeleteTask_selects in Eh by assumption.
    destruct (DeletedAt t'); [discriminate|].
    apply andb_prop in Eh as [Eh _]. apply String.eqb_eq in Eh. contradiction.
Qed.

(** C8 (the code departs from it). [DeleteTask("", 1)] on a store where
    user 1 has two tasks and no task has the id [""]: the blank id is no
    condition of the statement, every task of user 1 is removed from what
    the store shows, and the call returns [(true, nil)], where the comment
    above the function promises the removal of the task of the given id and
    a report of no row removed is due. *)
Theorem DeleteTask_blank_id_removes_all :
  (forall t, In t (tasks Sample.store) -> Id t <> "") /\
  snd (DeleteTask Sample.store "" 1%N) = (true, None) /\
  map (fun t => (Id t, UserId t, DeletedAt t))
      (tasks (fst (DeleteTask Sample.store "" 1%N)))
  = [("t1", 1%N, Some 1700000000); ("t2", 1%N, Some 1700000000);
     ("t3", 2%N, None)] /\
  GetTasks (fst (DeleteTask Sample.store "" 1%N)) 1%N None = ([], None).
Proof.
  split; [|split; [|split]]; try reflexivity.
  simpl. intros t [<-|[<-|[<-|[]]]]; discriminate.
Qed.

(** ** Tokens *)

Lemma append_assoc (a b c : string) : (a ++ b) ++ c = a ++ (b ++ c).
Proof. induction a as [|x a IH]; simpl; [reflexivity|]. now rewrite IH. Qed.

Lemma Split_no_dot (a : string) : no_dot a = true -> Jwt.Split "." a = [a].
Proof.
  induction a as [|c a IH]; simpl; [reflexivity|].
  intros E. apply andb_prop in E as [Ec Ea].
  apply negb_true_iff in Ec. rewrite Ec, (IH Ea). reflexivity.
Qed.

Lemma Split_segment (a rest : string) :
  no_dot a = true ->
  Jwt.Split "." (a ++ String "." rest) = a :: Jwt.Split "." rest.
Proof.
  induction a as [|c a IH]; simpl; [reflexivity|].
  intros E. apply andb_prop in E as [Ec Ea].
  apply negb_true_iff in Ec. rewrite Ec, (IH Ea). reflexivity.
Qed.

Lemma Split_three (a b c : string) :
  no_dot a = true -> no_dot b = true -> no_dot c = true ->
  Jwt.Split "." ((a ++ "." ++ b) ++ "." ++ c) = [a; b; c].
Proof.
  intros Ha Hb Hc. rewrite append_assoc. simpl.
  rewrite (Split_segment a _ Ha), (Split_segment b _ Hb), (Split_no_dot c Hc).
  reflexivity.
Qed.

Lemma GetSigningMethod_Alg (alg : string) (m : Jwt.SigningMethod) :
  Jwt.GetSigningMethod alg = Some m -> Jwt.Alg m = alg.
Proof.
  unfold Jwt.GetSigningMethod. intros E. apply find_some in E as [_ E].
  now apply String.eqb_eq in E.
Qed.

Lemma Alg_HS256 (m : Jwt.SigningMethod) :
  String.eqb (Jwt.Alg m) (Jwt.Alg Jwt.HS256) = true -> m = Jwt.HS256.
Proof. destruct m; simpl; intros E; try discriminate; reflexivity. Qed.

Section TokenFacts.
Context `{W : Jwt.Wire DuetClaims}.

  (** The token [ServeLogin] writes. *)
Lemma ServeLogin_writes (userAndPass : usernameAndPassword) :
    ServeLogin (Ok userAndPass) =
    [login_line userAndPass;
     WriteJson
       [("token",
         Jwt.SigningString
           (Jwt.NewWithClaims Jwt.HS256 (login_claims (Login_Username userAndPass)))
         ++ "."
         ++ Jwt.EncodeSegment
              (Jwt.HMAC Jwt.SHA256 tokenSecret
                 (Jwt.SigningString
                    (Jwt.NewWithClaims Jwt.HS256
                       (login_claims (Login_Username userAndPass))))))]].
  Proof. reflexivity. Qed.

  (** [VerifyToken] on a token whose three segments decode. *)
Lemma VerifyToken_parsed (tokenString part0 part1 part2 : string)
        (headerBytes claimBytes : bytes) (header : Jwt.Header) (claims : DuetClaims) :
    Jwt.Split "." tokenString = [part0; part1; part2] ->
    Jwt.DecodeSegment part0 = Ok headerBytes ->
    Jwt.Unmarshal_Header headerBytes = Ok header ->
    Jwt.DecodeSegment part1 = Ok claimBytes ->
    Jwt.Unmarshal_Claims claimBytes = Ok claims ->
    snd (VerifyToken tokenString) =
    match Jwt.header_get header "alg" with
    | Some (Jwt.JString alg) =>
        match Jwt.GetSigningMethod alg with
        | None =>
            (None, Some (ValidationError None "signing method (alg) is unavailable."
                           Jwt.ValidationErrorUnverifiable))
        | Some method =>
            if String.eqb (Jwt.Alg method) (Jwt.Alg Jwt.HS256)
            then
              let v := DuetClaims_Valid Jwt.TimeFunc claims in
              let v :=
                match Jwt.Verify method (part0 ++ "." ++ part1) part2 tokenSecret with
                | Some err =>
                    {| Jwt.Inner := Some err;
                       Jwt.Errors := N.lor (Jwt.Errors v)
                                       Jwt.ValidationErrorSignatureInvalid |}
                | None => v
                end in
              if N.eqb (Jwt.Errors v) 0 then (Some claims, None)
              else (None, Some (ValidationError (Jwt.Inner v) "" (Jwt.Errors v)))
            else
              (None,
               Some (ValidationError
                       (Some (Errorf ("Unexpected signing method: " ++ alg))) ""
                       Jwt.ValidationErrorUnverifiable))
        end
    | _ =>
        (None, Some (ValidationError None "signing method (alg) is unspecified."
                       Jwt.ValidationErrorUnverifiable))
    end.
  Proof.
    intros Hs H0 Hh H1 Hc.
    unfold VerifyToken, Jwt.ParseWithClaims. rewrite Hs, H0, Hh, H1, Hc.
    destruct (Jwt.header_get header "alg") as [[alg|raw]|] eqn:Ea; try reflexivity.
    destruct (Jwt.GetSigningMethod alg) as [method|]; try reflexivity.
    unfold VerifyToken_keyFunc. cbn [Jwt.with_Method Jwt.Method Jwt.Token_Header
                                      Jwt.with_Claims Jwt.with_Header].
    rewrite Ea. cbn [Jwt.show].
    destruct (String.eqb (Jwt.Alg method) (Jwt.Alg Jwt.HS256)); cbn [negb];
      try reflexivity.
    cbv zeta.
    destruct (N.eqb _ 0); reflexivity.
  Qed.

  (** C1 (the code departs from it). After [CreateUser(username,
      password)], [ServeLogin] with that username and any other password
      does not refuse the login: it writes the very token it writes for the
      right password. The handler holds the note "TODO verify password" and
      reads neither the store nor the password, except to log it. *)
Theorem ServeLogin_ignores_password `{B : Bcrypt}
          (db db' : gormDB) (username password wrong : string) (user : User) :
    CreateUser db username password = (db', (Some user, None)) ->
    wrong <> password ->
    exists tokenString,
      ServeLogin (Ok {| Login_Username := username; Password := password |}) =
        [login_line {| Login_Username := username; Password := password |};
         WriteJson [("token", tokenString)]] /\
      ServeLogin (Ok {| Login_Username := username; Password := wrong |}) =
        [login_line {| Login_Username := username; Password := wrong |};
         WriteJson [("token", tokenString)]].
  Proof.
    intros _ _. eexists. split; rewrite ServeLogin_writes; reflexivity.
  Qed.

  (** C5. The token [ServeLogin] issues for a username (claims with the
      username as subject, issuer and audience, signed with HS256 under the
      service's secret), handed at once to [VerifyToken], is accepted, and
      the claims returned have the username as subject; this for a codec
      that carries the token. *)
Theorem issued_token_verifies (userAndPass : usernameAndPassword) :
    wire_carries (Login_Username userAndPass) ->
    exists tokenString claims,
      ServeLogin (Ok userAndPass) =
        [login_line userAndPass; WriteJson [("token", tokenString)]] /\
      snd (VerifyToken tokenString) = (Some claims, None) /\
      Jwt.Subject (StandardClaims claims) = Login_Username userAndPass.
  Proof.
    intros (Hh & Hc & [Dh Nh] & [Dc Nc] & [Dt Nt]).
    eexists. exists (login_claims (Login_Username userAndPass)).
    split; [apply ServeLogin_writes|]. split; [|reflexivity].
    unfold Jwt.SigningString in *.
    cbn [Jwt.NewWithClaims Jwt.Token_Header Jwt.Token_Claims Jwt.Alg] in *.
    rewrite (VerifyToken_parsed _ _ _ _ _ _ _ _
               (Split_three _ _ _ Nh Nc Nt) Dh Hh Dc Hc).
    cbn [Jwt.header_get Jwt.NewWithClaims Jwt.Token_Header find fst snd
         String.eqb Ascii.eqb Bool.eqb Jwt.Alg Jwt.Token_Claims].
    cbn [Jwt.GetSigningMethod Jwt.registered find Jwt.Alg String.eqb Ascii.eqb
         Bool.eqb].
    cbv zeta. unfold Jwt.Verify. cbn [Jwt.hash_of].
    rewrite Dt, String.eqb_refl. reflexivity.
  Qed.

End TokenFacts.

Lemma signature_bit_set (errs : N) :
  N.eqb (N.land (N.lor errs Jwt.ValidationErrorSignatureInvalid)
                Jwt.ValidationErrorSignatureInvalid) 0 = false.
Proof.
  apply N.eqb_neq. intros E.
  assert (Hbit : N.testbit (N.land (N.lor errs Jwt.ValidationErrorSignatureInvalid)
                                   Jwt.ValidationErrorSignatureInvalid) 2 = true).
  { rewrite N.land_spec, N.lor_spec. unfold Jwt.ValidationErrorSignatureInvalid.
    simpl. now rewrite orb_true_r. }
  rewrite E in Hbit. discriminate.
Qed.

Section TokenRejection.
Context `{W : Jwt.Wire DuetClaims}.

  (** A token that is not three segments. *)
Lemma VerifyToken_segment_count (tokenString : string) :
    List.length (Jwt.Split "." tokenString) <> 3%nat ->
    snd (VerifyToken tokenString) =
    (None, Some (ValidationError None "token contains an invalid number of segments"
                   Jwt.ValidationErrorMalformed)).
  Proof.
    intros Hlen. unfold VerifyToken, Jwt.ParseWithClaims.
    destruct (Jwt.Split "." tokenString) as [|a [|b [|c [|d l]]]];
      try reflexivity.
    now elim Hlen.
  Qed.

  (** A token with a segment that does not decode. *)
Lemma VerifyToken_undecodable (tokenString part0 part1 part2 : string) :
    Jwt.Split "." tokenString = [part0; part1; part2] ->
    (exists e, Jwt.DecodeSegment part0 = Err e) \/
    (exists hb e, Jwt.DecodeSegment part0 = Ok hb /\ Jwt.Unmarshal_Header hb = Err e) \/
    (exists e, Jwt.DecodeSegment part1 = Err e) \/
    (exists cb e, Jwt.DecodeSegment part1 = Ok cb /\ Jwt.Unmarshal_Claims cb = Err e) ->
    exists inner text,
      snd (VerifyToken tokenString) =
      (None, Some (ValidationError inner text Jwt.ValidationErrorMalformed)).
  Proof.
    intros Hs Hbad. unfold VerifyToken, Jwt.ParseWithClaims. rewrite Hs.
    destruct (Jwt.DecodeSegment part0) as [hb|e0] eqn:E0.
    2:{ destruct (Jwt.HasPrefix _ _); unfold Jwt.malformed; simpl; eauto. }
    destruct (Jwt.Unmarshal_Header hb) as [header|eh] eqn:Eh.
    2:{ unfold Jwt.malformed; simpl; eauto. }
    destruct (Jwt.DecodeSegment part1) as [cb|e1] eqn:E1.
    2:{ unfold Jwt.malformed; simpl; eauto. }
    destruct (Jwt.Unmarshal_Claims cb) as [claims|ec] eqn:Ec.
    2:{ unfold Jwt.malformed; simpl; eauto. }
    exfalso.
    destruct Hbad as [[e H]|[(hb' & e & H & H')|[[e H]|(cb' & e & H & H')]]];
      congruence.
  Qed.

  (** A token whose header names another algorithm. *)
Lemma VerifyToken_wrong_algorithm
        (tokenString part0 part1 part2 : string) (headerBytes claimBytes : bytes)
        (header : Jwt.Header) (claims : DuetClaims) :
    Jwt.Split "." tokenString = [part0; part1; part2] ->
    Jwt.DecodeSegment part0 = Ok headerBytes ->
    Jwt.Unmarshal_Header headerBytes = Ok header ->
    Jwt.DecodeSegment part1 = Ok claimBytes ->
    Jwt.Unmarshal_Claims claimBytes = Ok claims ->
    Jwt.header_get header "alg" <> Some (Jwt.JString "HS256") ->
    exists inner text,
      snd (VerifyToken tokenString) =
      (None, Some (ValidationError inner text Jwt.ValidationErrorUnverifiable)).
  Proof.
    intros Hs H0 Hh H1 Hc Halg.
    rewrite (VerifyToken_parsed _ _ _ _ _ _ _ _ Hs H0 Hh H1 Hc).
    destruct (Jwt.header_get header "alg") as [[alg|raw]|]; eauto.
    destruct (Jwt.GetSigningMethod alg) as [method|] eqn:Em; eauto.
    destruct (String.eqb (Jwt.Alg method) (Jwt.Alg Jwt.HS256)) eqn:Ea; eauto.
    exfalso. apply Halg. apply Alg_HS256 in Ea. subst method.
    apply GetSigningMethod_Alg in Em. simpl in Em. now subst alg.
  Qed.

  (** A token whose signature segment is not the tag under the service's
      secret. *)
Lemma VerifyToken_bad_signature
        (tokenString part0 part1 part2 : string) (headerBytes claimBytes : bytes)
        (header : Jwt.Header) (claims : DuetClaims) :
    Jwt.Split "." tokenString = [part0; part1; part2] ->
    Jwt.DecodeSegment part0 = Ok headerBytes ->
    Jwt.Unmarshal_Header headerBytes = Ok header ->
    Jwt.DecodeSegment part1 = Ok claimBytes ->
    Jwt.Unmarshal_Claims claimBytes = Ok claims ->
    Jwt.header_get header "alg" = Some (Jwt.JString "HS256") ->
    Jwt.DecodeSegment part2 <>
      Ok (Jwt.HMAC Jwt.SHA256 tokenSecret (part0 ++ "." ++ part1)) ->
    exists e,
      snd (VerifyToken tokenString) = (None, Some e) /\
      has_flag e Jwt.ValidationErrorSignatureInvalid = true.
  Proof.
    intros Hs H0 Hh H1 Hc Halg Hsig.
    rewrite (VerifyToken_parsed _ _ _ _ _ _ _ _ Hs H0 Hh H1 Hc), Halg.
    cbn [Jwt.GetSigningMethod Jwt.registered find Jwt.Alg String.eqb Ascii.eqb
         Bool.eqb].
    cbv zeta. unfold Jwt.Verify. cbn [Jwt.hash_of].
    assert (Hbad : exists err,
               match Jwt.DecodeSegment part2 with
               | Ok sig =>
                   if String.eqb sig
                        (Jwt.HMAC Jwt.SHA256 tokenSecret (part0 ++ "." ++ part1))
                   then None else Some ErrSignatureInvalid
               | Err err => Some err
               end = Some err).
    { destruct (Jwt.DecodeSegment part2) as [sig|err]; [|eauto].
      destruct (String.eqb_spec sig
                  (Jwt.HMAC Jwt.SHA256 tokenSecret (part0 ++ "." ++ part1)));
        [subst sig; now elim Hsig|eauto]. }
    destruct Hbad as [err ->]. cbn [Jwt.Errors Jwt.Inner].
    destruct (N.eqb_spec
                (N.lor (Jwt.Errors (DuetClaims_Valid Jwt.TimeFunc claims))
                       Jwt.ValidationErrorSignatureInvalid) 0) as [E0|_].
    - exfalso. pose proof (signature_bit_set
                             (Jwt.Errors (DuetClaims_Valid Jwt.TimeFunc claims))) as Hb.
      rewrite E0 in Hb. discriminate.
    - eexists. split; [reflexivity|]. simpl has_flag.
      now rewrite signature_bit_set.
  Qed.

  (** C6, as the code has it. [VerifyToken] returns an error, and no
      claims, for a token whose header names an algorithm other than HS256
      (the error is the parser's "unverifiable", which carries the key
      function's "Unexpected signing method"), for a token whose signature
      segment is not the HS256 tag of its first two segments under the
      service's secret (the error has the signature-invalid bit), and for a
      token that is not three segments or has a segment that does not
      decode (the error is "malformed"). What decides is the tag, not the
      key: a token signed under another secret is refused when its tag
      differs, and two secrets that HMAC takes for the same key give the
      same tag. *)
Theorem VerifyToken_rejects :
    (forall tokenString part0 part1 part2 headerBytes header claimBytes claims,
        Jwt.Split "." tokenString = [part0; part1; part2] ->
        Jwt.DecodeSegment part0 = Ok headerBytes ->
        Jwt.Unmarshal_Header headerBytes = Ok header ->
        Jwt.DecodeSegment part1 = Ok claimBytes ->
        Jwt.Unmarshal_Claims claimBytes = Ok claims ->
        Jwt.header_get header "alg" <> Some (Jwt.JString "HS256") ->
        exists inner text,
          snd (VerifyToken tokenString) =
          (None, Some (ValidationError inner text Jwt.ValidationErrorUnverifiable)))
    /\
    (forall tokenString part0 part1 part2 headerBytes header claimBytes claims,
        Jwt.Split "." tokenString = [part0; part1; part2] ->
        Jwt.DecodeSegment part0 = Ok headerBytes ->
        Jwt.Unmarshal_Header headerBytes = Ok header ->
        Jwt.DecodeSegment part1 = Ok claimBytes ->
        Jwt.Unmarshal_Claims claimBytes = Ok claims ->
        Jwt.header_get header "alg" = Some (Jwt.JString "HS256") ->
        Jwt.DecodeSegment part2 <>
          Ok (Jwt.HMAC Jwt.SHA256 tokenSecret (part0 ++ "." ++ part1)) ->
        exists e,
          snd (VerifyToken tokenString) = (None, Some e) /\
          has_flag e Jwt.ValidationErrorSignatureInvalid = true)
    /\
    (forall tokenString,
        List.length (Jwt.Split "." tokenString) <> 3%nat ->
        snd (VerifyToken tokenString) =
        (None, Some (ValidationError None
                       "token contains an invalid number of segments"
                       Jwt.ValidationErrorMalformed)))
    /\
    (forall tokenString part0 part1 part2,
        Jwt.Split "." tokenString = [part0; part1; part2] ->
        (exists e, Jwt.DecodeSegment part0 = Err e) \/
        (exists hb e, Jwt.DecodeSegment part0 = Ok hb /\
                      Jwt.Unmarshal_Header hb = Err e) \/
        (exists e, Jwt.DecodeSegment part1 = Err e) \/
        (exists cb e, Jwt.DecodeSegment part1 = Ok cb /\
                      Jwt.Unmarshal_Claims cb = Err e) ->
        exists inner text,
          snd (VerifyToken tokenString) =
          (None, Some (ValidationError inner text Jwt.ValidationErrorMalformed))).
  Proof.
    split; [|split; [|split]].
    - intros *. apply VerifyToken_wrong_algorithm.
    - intros *. apply VerifyToken_bad_signature.
    - exact VerifyToken_segment_count.
    - exact VerifyToken_undecodable.
  Qed.

  (** A token made by signing under another secret, whose tag is not the
      service's, is rejected, whatever its claims. *)
Corollary token_of_other_secret_rejected (claims : DuetClaims) (key : bytes)
            (tokenString : string) :
    let token := Jwt.NewWithClaims Jwt.HS256 claims in
    Jwt.SignedString token key = Ok tokenString ->
    no_dot (Jwt.EncodeSegment (Jwt.Marshal_Header (Jwt.Token_Header token))) = true ->
    no_dot (Jwt.EncodeSegment (Jwt.Marshal_Claims claims)) = true ->
    carried (Jwt.HMAC Jwt.SHA256 key (Jwt.SigningString token)) ->
    Jwt.HMAC Jwt.SHA256 key (Jwt.SigningString token)
    <> Jwt.HMAC Jwt.SHA256 tokenSecret (Jwt.SigningString token) ->
    exists e, snd (VerifyToken tokenString) = (None, Some e).
  Proof.
    intros token Hsigned Nh Nc [Dt Nt] Hdiff.
    unfold Jwt.SignedString, Jwt.Sign in Hsigned.
    cbn [token Jwt.NewWithClaims Jwt.Method Jwt.hash_of] in Hsigned.
    injection Hsigned as <-.
    unfold Jwt.SigningString in *.
    cbn [token Jwt.NewWithClaims Jwt.Token_Header Jwt.Token_Claims] in *.
    pose proof (Split_three _ _ _ Nh Nc Nt) as Hs.
    pose proof VerifyToken_wrong_algorithm as Halg.
    pose proof VerifyToken_bad_signature as Hsig.
    pose proof VerifyToken_undecodable as Hmal.
    set (p0 := Jwt.EncodeSegment (Jwt.Marshal_Header _)) in *.
    set (p1 := Jwt.EncodeSegment (Jwt.Marshal_Claims _)) in *.
    destruct (Jwt.DecodeSegment p0) as [hb|e0] eqn:E0.
    2:{ destruct (Hmal _ _ _ _ Hs) as (inner & text & E); eauto 6. }
    destruct (Jwt.Unmarshal_Header hb) as [header|eh] eqn:Eh.
    2:{ destruct (Hmal _ _ _ _ Hs) as (inner & text & E); eauto 8. }
    destruct (Jwt.DecodeSegment p1) as [cb|e1] eqn:E1.
    2:{ destruct (Hmal _ _ _ _ Hs) as (inner & text & E); eauto 8. }
    destruct (Jwt.Unmarshal_Claims cb) as [decoded|ec] eqn:Ec.
    2:{ destruct (Hmal _ _ _ _ Hs) as (inner & text & E); eauto 10. }
    assert (Hdec : {Jwt.header_get header "alg" = Some (Jwt.JString "HS256")}
                   + {Jwt.header_get header "alg" <> Some (Jwt.JString "HS256")}).
    { destruct (Jwt.header_get header "alg") as [[alg|raw]|];
        try (right; discriminate).
      destruct (string_dec alg "HS256") as [->|Hne]; [left; reflexivity|].
      right. intros [= E]. contradiction. }
    destruct Hdec as [Hyes|Hno].
    - destruct (Hsig _ _ _ _ _ _ _ _ Hs E0 Eh E1 Ec Hyes) as (e & E & _); eauto.
      rewrite Dt. intros [= E]. apply Hdiff. exact E.
    - destruct (Halg _ _ _ _ _ _ _ _ Hs E0 Eh E1 Ec Hno) as (inner & text & E); eauto.
  Qed.

End TokenRejection.

(** ** The gate *)

Section GateFacts.
Context `{G : GateEnv}.

  (** The three ways through the gate. *)
Lemma authGraphqlHandler_cases (now : Z) (r : Request) :
    (exists err,
        GetBearerToken r = Err err /\
        authGraphqlHandler now r = [http_Error (Error_string err) StatusUnauthorized])
    \/
    (exists token err took,
        GetBearerToken r = Ok token /\ AuthUserId token = (Err err, took) /\
        authGraphqlHandler now r =
          [gate_log_Printf ("Error verifying token: " ++ Error_string err);
           http_Error "Invalid token" StatusUnauthorized; cancel])
    \/
    (exists token userId took,
        GetBearerToken r = Ok token /\ AuthUserId token = (Ok userId, took) /\
        authGraphqlHandler now r =
          [ContextHandler
             {| Deadline := Some (now + 500); Values := [(UserIdKey, userId)] |}
             r (now + took);
           cancel]).
  Proof.
    unfold authGraphqlHandler.
    destruct (GetBearerToken r) as [token|err] eqn:E1; [|left; eauto].
    destruct (AuthUserId token) as [[userId|err] took] eqn:E2.
    - right; right. exists token, userId, took. repeat split; assumption.
    - right; left. exists token, err, took. repeat split; assumption.
  Qed.

  (** C2. A request whose bearer token cannot be extracted, or whose
      token does not verify or resolve to a user, is answered with HTTP 401
      and the wrapped GraphQL handler is not called; the handler is called
      only after the user id has been resolved, with the request itself and
      a context that holds that id under the user-id key. *)
Theorem gate_rejects_before_handler (now : Z) (r : Request) :
    (forall err,
        GetBearerToken r = Err err ->
        authGraphqlHandler now r = [http_Error (Error_string err) StatusUnauthorized])
    /\
    (forall token err took,
        GetBearerToken r = Ok token -> AuthUserId token = (Err err, took) ->
        authGraphqlHandler now r =
          [gate_log_Printf ("Error verifying token: " ++ Error_string err);
           http_Error "Invalid token" StatusUnauthorized; cancel])
    /\
    (forall ctx r' clock,
        In (ContextHandler ctx r' clock) (authGraphqlHandler now r) ->
        r' = r /\
        exists token userId took,
          GetBearerToken r = Ok token /\ AuthUserId token = (Ok userId, took) /\
          context_Value ctx UserIdKey = Some userId /\
          Values ctx = [(UserIdKey, userId)]).
  Proof.
    split; [|split].
    - intros err E. unfold authGraphqlHandler. now rewrite E.
    - intros token err took E1 E2. unfold authGraphqlHandler. now rewrite E1, E2.
    - intros ctx r' clock Hin.
      destruct (authGraphqlHandler_cases now r)
        as [(err & _ & E)|[(token & err & took & _ & _ & E)
                          |(token & userId & took & E1 & E2 & E)]];
        rewrite E in Hin; simpl in Hin.
      + destruct Hin as [Hin|[]]; discriminate.
      + destruct Hin as [Hin|[Hin|[Hin|[]]]]; discriminate.
      + destruct Hin as [Hin|[Hin|[]]]; [|discriminate].
        injection Hin as <- <- <-. split; [reflexivity|].
        exists token, userId, took. repeat split; try assumption.
        unfold context_Value. simpl. now rewrite String.eqb_refl.
  Qed.

  (** C9, as the code has it. The context with the 500 ms deadline is
      made before the token is verified and is handed, with the user id, to
      the GraphQL handler: the deadline is the handler's. The verification
      and the resolution of the user are not given the context and are not
      cut short: however long they take, the handler is called once they
      succeed. The only failure answer of the gate is HTTP 401, and the
      handler is never called without a resolved user. *)
Theorem gate_deadline_is_the_handlers (now : Z) (r : Request) :
    (forall token userId took,
        GetBearerToken r = Ok token -> AuthUserId token = (Ok userId, took) ->
        authGraphqlHandler now r =
          [ContextHandler
             {| Deadline := Some (now + 500); Values := [(UserIdKey, userId)] |}
             r (now + took);
           cancel])
    /\
    (forall body code,
        In (http_Error body code) (authGraphqlHandler now r) ->
        code = StatusUnauthorized)
    /\
    (forall ctx r' clock,
        In (ContextHandler ctx r' clock) (authGraphqlHandler now r) ->
        exists token userId took,
          GetBearerToken r = Ok token /\ AuthUserId token = (Ok userId, took)).
  Proof.
    split; [|split].
    - intros token userId took E1 E2. unfold authGraphqlHandler.
      now rewrite E1, E2.
    - intros body code Hin.
      destruct (authGraphqlHandler_cases now r)
        as [(err & _ & E)|[(token & err & took & _ & _ & E)
                          |(token & userId & took & _ & _ & E)]];
        rewrite E in Hin; simpl in Hin.
      + destruct Hin as [Hin|[]]. now injection Hin as _ <-.
      + destruct Hin as [Hin|[Hin|[Hin|[]]]]; try discriminate.
        now injection Hin as _ <-.
      + destruct Hin as [Hin|[Hin|[]]]; discriminate.
    - intros ctx r' clock Hin.
      destruct (authGraphqlHandler_cases now r)
        as [(err & _ & E)|[(token & err & took & _ & _ & E)
                          |(token & userId & took & E1 & E2 & E)]];
        rewrite E in Hin; simpl in Hin.
      + destruct Hin as [Hin|[]]; discriminate.
      + destruct Hin as [Hin|[Hin|[Hin|[]]]]; discriminate.
      + eauto.
  Qed.

End GateFacts.

(** ** Close *)

(** The selector [db.Close] in the body of [gormDB.Close] denotes
    [gormDB.Close] itself, which is declared at depth zero, not the
    [Close] promoted from the embedded [*gorm.DB]. *)
Lemma selector_Close : selector 2 [T_gormDB] "Close" = Some T_gormDB.
Proof. reflexivity. Qed.

(** Called on the embedded value, [Close] returns what closing the
    connection returns. *)
Lemma embedded_Close_returns (sql_Close : gormDB -> option error)
      (frames : nat) (db : gormDB) :
  call_Close sql_Close (S frames) T_gorm_DB db = Returns (sql_Close db).
Proof. reflexivity. Qed.

(** C10 (the code departs from it). [Close()] on a [gormDB] does not
    return: its body calls [gormDB.Close] again, the connection is never
    closed, and whatever the stack allows the call ends in its
    exhaustion. *)
Theorem Close_never_returns (sql_Close : gormDB -> option error)
        (frames : nat) (db : gormDB) :
  Close sql_Close frames db = StackOverflow.
Proof.
  unfold Close. induction frames as [|frames IH]; simpl; [reflexivity|].
  exact IH.
Qed.

(** ** The statements at sample inputs *)

Lemma ServeLogin_ignores_password_witness :
  exists tokenString,
    ServeLogin (H := Sample.wire)
      (Ok {| Login_Username := "alice"; Password := "pw1" |}) =
      [login_line {| Login_Username := "alice"; Password := "pw1" |};
       WriteJson [("token", tokenString)]] /\
    ServeLogin (H := Sample.wire)
      (Ok {| Login_Username := "alice"; Password := "wrong" |}) =
      [login_line {| Login_Username := "alice"; Password := "wrong" |};
       WriteJson [("token", tokenString)]].
Proof.
  eapply (ServeLogin_ignores_password (W := Sample.wire) (B := Sample.bcrypt)
            Sample.empty _ "alice" "pw1" "wrong" _).
  - vm_compute. reflexivity.
  - discriminate.
Defined.

Lemma issued_token_verifies_witness :
  exists tokenString claims,
    ServeLogin (H := Sample.wire)
      (Ok {| Login_Username := "alice"; Password := "pw1" |}) =
      [login_line {| Login_Username := "alice"; Password := "pw1" |};
       WriteJson [("token", tokenString)]] /\
    snd (VerifyToken (H := Sample.wire) tokenString) = (Some claims, None) /\
    Jwt.Subject (StandardClaims claims) = "alice".
Proof.
  apply (issued_token_verifies (W := Sample.wire)
           {| Login_Username := "alice"; Password := "pw1" |}).
  repeat split; vm_compute; reflexivity.
Defined.

Lemma VerifyToken_rejects_witness :
  (exists inner text,
      snd (VerifyToken (H := Sample.wire) (Sample.forge "RS256" "alice" tokenSecret))
      = (None, Some (ValidationError inner text Jwt.ValidationErrorUnverifiable)))
  /\
  (exists e,
      snd (VerifyToken (H := Sample.wire) (Sample.forge "HS256" "alice" "otherSecret"))
      = (None, Some e) /\
      has_flag e Jwt.ValidationErrorSignatureInvalid = true)
  /\
  snd (VerifyToken (H := Sample.wire) "not a token") =
    (None, Some (ValidationError None "token contains an invalid number of segments"
                   Jwt.ValidationErrorMalformed))
  /\
  (exists inner text,
      snd (VerifyToken (H := Sample.wire) "zz.zz.zz")
      = (None, Some (ValidationError inner text Jwt.ValidationErrorMalformed))).
Proof.
  destruct (VerifyToken_rejects (W := Sample.wire)) as (Halg & Hsig & Hcount & Hmal).
  split; [|split; [|split]].
  - eapply Halg; [vm_compute; reflexivity ..|].
    vm_compute. discriminate.
  - eapply Hsig; [vm_compute; reflexivity ..|].
    vm_compute. discriminate.
  - apply Hcount. vm_compute. discriminate.
  - eapply Hmal; [vm_compute; reflexivity|].
    left. eexists. vm_compute. reflexivity.
Defined.

Lemma gate_rejects_before_handler_witness :
  authGraphqlHandler (H := Sample.gate 20) 0 "Basic alice" =
    [http_Error "Invalid authentication method" StatusUnauthorized] /\
  authGraphqlHandler (H := Sample.gate 20) 0 "Bearer mallory" =
    [gate_log_Printf "Error verifying token: record not found";
     http_Error "Invalid token" StatusUnauthorized; cancel] /\
  exists token userId took,
    GetBearerToken (GateEnv := Sample.gate 20) "Bearer alice" = Ok token /\
    AuthUserId (GateEnv := Sample.gate 20) token = (Ok userId, took) /\
    context_Value {| Deadline := Some 500; Values := [("userId", 1%N)] |} "userId"
    = Some userId.
Proof.
  split; [|split].
  - apply (proj1 (gate_rejects_before_handler (G := Sample.gate 20) 0 "Basic alice")
             (Errorf "Invalid authentication method")).
    reflexivity.
  - apply (proj1 (proj2 (gate_rejects_before_handler (G := Sample.gate 20) 0
                           "Bearer mallory"))
             "mallory" ErrRecordNotFound 20); reflexivity.
  - destruct (proj2 (proj2 (gate_rejects_before_handler (G := Sample.gate 20) 0
                              "Bearer alice"))
                {| Deadline := Some 500; Values := [("userId", 1%N)] |}
                "Bearer alice" 20)
      as (_ & token & userId & took & E1 & E2 & E3 & _).
    + left. reflexivity.
    + exists token, userId, took. auto.
Defined.

(** C9 as the design document has it fails on the code: with a
    verification that takes ten seconds and succeeds, the wrapped handler
    is called all the same, and no error is written. *)
Lemma deadline_does_not_bound_verification :
  ~ aborts_on_deadline (Sample.gate 10000).
Proof.
  intros Hclaim.
  destruct (Hclaim 0 "Bearer alice" "alice" (Ok 1%N) 10000 eq_refl eq_refl
              ltac:(lia)) as [Hnever _].
  apply (Hnever {| Deadline := Some 500; Values := [("userId", 1%N)] |}
                "Bearer alice" 10000).
  left. reflexivity.
Qed.

Lemma gate_deadline_is_the_handlers_witness :
  authGraphqlHandler (H := Sample.gate 10000) 0 "Bearer alice" =
    [ContextHandler (H := Sample.gate 10000)
       {| Deadline := Some 500; Values := [("userId", 1%N)] |}
       "Bearer alice" 10000;
     cancel].
Proof.
  apply (proj1 (gate_deadline_is_the_handlers (G := Sample.gate 10000) 0
                  "Bearer alice") "alice" 1%N 10000); reflexivity.
Defined.

(** * Further properties of the store *)

Lemma filter_unique {A B : Type} (f : A -> B) (p : A -> bool) (l : list A) (a : A) :
  NoDup (map f l) -> In a l -> p a = true ->
  (forall x, In x l -> p x = true -> f x = f a) ->
  filter p l = [a].
Proof.
  induction l as [|x l IH]; simpl; intros ND Hin Hp Hsame; [contradiction|].
  inversion ND as [|y ys Hnotin ND']; subst.
  destruct Hin as [->|Hin].
  - rewrite Hp. f_equal. apply filter_nil_iff. intros b Hb.
    destruct (p b) eqn:Eb; [|reflexivity].
    exfalso. apply Hnotin. rewrite <- (Hsame b (or_intror Hb) Eb).
    now apply in_map.
  - destruct (p x) eqn:Ex.
    + exfalso. apply Hnotin. rewrite (Hsame x (or_introl eq_refl) Ex).
      now apply in_map.
    + apply IH; auto.
Qed.

Lemma TaskKind_int_eqb (a b : TaskKind) :
  Z.eqb (TaskKind_int a) (TaskKind_int b) = true <-> a = b.
Proof. destruct a, b; simpl; split; intros E; try discriminate; reflexivity. Qed.

(** What the WHERE of [GetTask] selects, kind included. *)
Lemma selected_GetTask_kind (taskId : string) (userId : uint64)
      (kind : option TaskKind) (t : Task) :
  selected Task_zero (whereMap (GetTask_conditions taskId userId kind)) t =
  match DeletedAt t with
  | None =>
      String.eqb (Id t) taskId && N.eqb (UserId t) userId
      && match kind with
         | Some k => Z.eqb (TaskKind_int (Kind t)) (TaskKind_int k)
         | None => true
         end
  | Some _ => false
  end.
Proof.
  unfold selected, visible, whereMap, GetTask_conditions. cbn.
  destruct (DeletedAt t); cbn; [reflexivity|].
  destruct kind; cbn; rewrite ?andb_true_r, ?andb_assoc; reflexivity.
Qed.

(** X1. [GetTask] on a visible task of the caller, ids being unique: the
    task is returned, with the actions that point to it, when no kind is
    asked for or the kind asked for is the task's; with the other kind
    asked for, the record is not found. *)
Theorem GetTask_owned (db : gormDB) (taskId : string) (userId : uint64)
        (kind : option TaskKind) (row : Task) :
  NoDup (map Id (tasks db)) ->
  In row (tasks db) -> DeletedAt row = None -> Id row = taskId ->
  UserId row = userId ->
  GetTask db taskId userId kind =
  match kind with
  | None => (Some (Preload_Actions db row), None)
  | Some k => if Z.eqb (TaskKind_int (Kind row)) (TaskKind_int k)
              then (Some (Preload_Actions db row), None)
              else (None, Some ErrRecordNotFound)
  end.
Proof.
  intros ND Hin Hd Hi Hu. rewrite GetTask_unfold. unfold First.
  assert (Hsel : selected Task_zero
                   (whereMap (GetTask_conditions taskId userId kind)) row =
                 match kind with
                 | Some k => Z.eqb (TaskKind_int (Kind row)) (TaskKind_int k)
                 | None => true
                 end).
  { rewrite selected_GetTask_kind, Hd, Hi, Hu, String.eqb_refl, N.eqb_refl.
    reflexivity. }
  destruct (selected Task_zero (whereMap (GetTask_conditions taskId userId kind)) row)
    eqn:E.
  - rewrite (filter_unique Id _ (tasks db) row ND Hin E).
    + simpl. destruct kind as [k|]; [rewrite <- Hsel|]; reflexivity.
    + intros x _ Hx. rewrite selected_GetTask_kind in Hx.
      destruct (DeletedAt x); [discriminate|].
      apply andb_prop in Hx as [Hx _]. apply andb_prop in Hx as [Hx _].
      apply String.eqb_eq in Hx. congruence.
  - replace (filter _ (tasks db)) with (@nil Task).
    + simpl. destruct kind as [k|]; [rewrite <- Hsel; reflexivity|discriminate].
    + symmetry. apply filter_nil_iff. intros x Hx.
      destruct (selected _ _ x) eqn:Ex; [|reflexivity].
      rewrite selected_GetTask_kind in Ex.
      destruct (DeletedAt x) eqn:Edx; [discriminate|].
      apply andb_prop in Ex as [Ex Ek]. apply andb_prop in Ex as [Ex _].
      apply String.eqb_eq in Ex.
      assert (x = row) by (apply (NoDup_map_inj Id (tasks db)); congruence).
      subst x. rewrite Hsel in E. destruct kind; congruence.
Qed.

Lemma GetTask_owned_witness :
  GetTask Fixture.store "t1" 1%N (Some HabitEnum) = (None, Some ErrRecordNotFound) /\
  fst (GetTask Fixture.store "t1" 1%N None) =
    Some (set_Actions (Sample.task "t1" "Buy milk" 1%N) [Fixture.action "a1" "t1"]).
Proof.
  assert (ND : NoDup (map Id (tasks Fixture.store))).
  { simpl. repeat constructor; simpl; intuition discriminate. }
  split.
  - rewrite (GetTask_owned Fixture.store "t1" 1%N (Some HabitEnum)
               (Sample.task "t1" "Buy milk" 1%N) ND); simpl; auto.
  - rewrite (GetTask_owned Fixture.store "t1" 1%N None
               (Sample.task "t1" "Buy milk" 1%N) ND); simpl; auto.
Defined.

(** X2. [GetTasks(userId, kind)] returns, without error, exactly the
    visible tasks whose owner is [userId] (and whose kind is the one asked
    for, when one is), each with the actions that point to it: no task of
    another user, no deleted task. *)
Theorem GetTasks_exactly_own (db : gormDB) (userId : uint64)
        (kind : option TaskKind) (task : Task) :
  snd (GetTasks db userId kind) = None /\
  (In task (fst (GetTasks db userId kind)) <->
   exists row, In row (tasks db) /\ DeletedAt row = None /\ UserId row = userId /\
               (forall k, kind = Some k -> Kind row = k) /\
               task = Preload_Actions db row).
Proof.
  split; [reflexivity|].
  assert (Hsel : forall t,
             selected Task_zero
               (whereMap (match kind with
                          | Some k => ([("user_id", VUint userId)]
                                       ++ [("kind", VInt (TaskKind_int k))])%list
                          | None => [("user_id", VUint userId)]
                          end)) t = true <->
             DeletedAt t = None /\ UserId t = userId /\
             (forall k, kind = Some k -> Kind t = k)).
  { intros t. unfold selected, visible, whereMap. destruct kind as [k|]; cbn;
      destruct (DeletedAt t); cbn; rewrite ?andb_true_r.
    - split; [discriminate|]. intros [H _]. discriminate.
    - rewrite andb_true_iff, N.eqb_eq, TaskKind_int_eqb. split.
      + intros [Hu Hk]. repeat split; auto. intros k' [= <-]. exact Hk.
      + intros (_ & Hu & Hk). auto.
    - split; [discriminate|]. intros [H _]. discriminate.
    - rewrite N.eqb_eq. split.
      + intros Hu. repeat split; auto. discriminate.
      + intros (_ & Hu & _). exact Hu. }
  unfold GetTasks, Find. cbn [fst]. rewrite in_map_iff. split.
  - intros (row & <- & Hin). apply filter_In in Hin as [Hin Hs].
    apply Hsel in Hs as (Hd & Hu & Hk). exists row. auto.
  - intros (row & Hin & Hd & Hu & Hk & ->). exists row. split; [reflexivity|].
    apply filter_In. split; [exact Hin|]. apply Hsel. auto.
Qed.

Lemma keyTaken_tasks (ts : list Task) (id : string) :
  keyTaken ts (VString id) = false <-> forall a, In a ts -> Id a <> id.
Proof.
  unfold keyTaken. induction ts as [|x ts IH]; simpl.
  - split; [intros _ a []|reflexivity].
  - rewrite orb_false_iff, IH. unfold primaryKey. cbn.
    rewrite String.eqb_neq. split.
    + intros [Hx Hts] a [<-|Ha]; auto.
    + intros Hall. split; [apply Hall; auto|]. intros a Ha. apply Hall. auto.
Qed.

(** A successful [AddTask], spelled out. *)
Lemma AddTask_success (db db' : gormDB) (task stored : Task) (userId : uint64) :
  AddTask db task userId = (db', stored, None) ->
  (forall a, In a (tasks db) -> Id a <> new_task_id db task) /\
  stored = set_Id (set_stamps (set_UserId task userId) (NowFunc db))
                  (new_task_id db task) /\
  tasks db' = (tasks db ++ [set_Actions stored []])%list /\
  actions db' = actions db /\ users db' = users db.
Proof.
  unfold AddTask, Create_Task, new_task_id.
  change (Id (set_UserId task userId)) with (Id task).
  destruct (isBlank (VString (Id task))); cbn [draw_uuid tasks].
  - destruct (keyTaken (tasks db) _) eqn:Ek; intros [= <- <-].
    pose proof (proj1 (keyTaken_tasks _ _) Ek) as Hfresh. repeat split; auto.
  - destruct (keyTaken (tasks db) _) eqn:Ek; intros [= <- <-].
    pose proof (proj1 (keyTaken_tasks _ _) Ek) as Hfresh. repeat split; auto.
Qed.

(** X3. A task added with [AddTask] is read back by [GetTask] with its
    new id and the adding user: the task as stored, with the actions that
    point to its id. This for a task not marked deleted by the caller. *)
Theorem AddTask_then_GetTask (db db' : gormDB) (task stored : Task)
        (userId : uint64) :
  AddTask db task userId = (db', stored, None) ->
  DeletedAt task = None ->
  GetTask db' (Id stored) userId None =
    (Some (Preload_Actions db' (set_Actions stored [])), None).
Proof.
  intros E Hd. apply AddTask_success in E as (Hfresh & Hs & Ht & _ & _).
  rewrite GetTask_unfold. unfold First. rewrite Ht, filter_app.
  replace (filter _ (tasks db)) with (@nil Task).
  - cbn [filter app]. rewrite selected_GetTask_kind.
    assert (Hd' : DeletedAt (set_Actions stored []) = None) by (subst stored; exact Hd).
    assert (Hu' : UserId (set_Actions stored []) = userId) by (subst stored; reflexivity).
    rewrite Hd', Hu'. cbn [Id set_Actions].
    rewrite String.eqb_refl, N.eqb_refl. reflexivity.
  - symmetry. apply filter_nil_iff. intros a Ha.
    rewrite selected_GetTask_kind. destruct (DeletedAt a); [reflexivity|].
    destruct (String.eqb_spec (Id a) (Id stored)) as [Ei|]; [|reflexivity].
    exfalso. apply (Hfresh a Ha). rewrite Ei. subst stored. reflexivity.
Qed.

Lemma AddTask_then_GetTask_witness :
  exists db' stored,
    AddTask Fixture.store (Sample.task "" "Write" 7%N) 2%N = (db', stored, None) /\
    fst (GetTask db' (Id stored) 2%N None) = Some stored.
Proof.
  destruct (AddTask Fixture.store (Sample.task "" "Write" 7%N) 2%N)
    as [[db' stored] err] eqn:E.
  assert (err = None) by (vm_compute in E; congruence). subst err.
  exists db', stored. split; [reflexivity|].
  rewrite (AddTask_then_GetTask Fixture.store db' (Sample.task "" "Write" 7%N)
             stored 2%N E eq_refl).
  vm_compute in E. injection E as <- <-. reflexivity.
Defined.



(** X5. [AddTask] keeps the ids of the task table distinct. *)
Theorem AddTask_keeps_ids_unique (db db' : gormDB) (task stored : Task)
        (userId : uint64) (err : option error) :
  NoDup (map Id (tasks db)) ->
  AddTask db task userId = (db', stored, err) ->
  NoDup (map Id (tasks db')).
Proof.
  intros ND E. destruct err as [e|].
  - unfold AddTask in E.
    destruct (Create_Task_cases db (set_UserId task userId)) as (db1 & Ht & Hc).
    rewrite E in Hc. destruct (keyTaken _ _); inversion Hc; subst.
    now rewrite Ht.
  - apply AddTask_success in E as (Hfresh & Hs & Ht & _ & _).
    rewrite Ht, map_app. cbn [map Id set_Actions].
    apply NoDup_app_remove_l with (l := []). simpl.
    rewrite <- (app_nil_l (map Id (tasks db) ++ [Id stored])%list).
    apply NoDup_app_remove_l with (l := []). simpl.
    assert (Hn : ~ In (Id stored) (map Id (tasks db))).
    { intros Hin. apply in_map_iff in Hin as (a & Ea & Ha).
      apply (Hfresh a Ha). rewrite Ea. subst stored. reflexivity. }
    clear - ND Hn. induction (map Id (tasks db)) as [|x l IH]; simpl.
    + repeat constructor. intros [].
    + inversion ND; subst. constructor.
      * intros Hin. apply in_app_or in Hin as [Hin|[<-|[]]]; [contradiction|].
        apply Hn. simpl. auto.
      * apply IH; auto. intros Hin. apply Hn. simpl. auto.
Qed.

Lemma AddTask_keeps_ids_unique_witness :
  NoDup (map Id (tasks (fst (fst
    (AddTask Fixture.store (Sample.task "t1" "Again" 1%N) 1%N))))).
Proof.
  destruct (AddTask Fixture.store (Sample.task "t1" "Again" 1%N) 1%N)
    as [[db' stored] err] eqn:E.
  apply (AddTask_keeps_ids_unique Fixture.store db'
           (Sample.task "t1" "Again" 1%N) stored 1%N err); [|exact E].
  simpl. repeat constructor; simpl; intuition discriminate.
Defined.

Lemma DeleteTask_no_row_witness :
  DeleteTask Fixture.store "t3" 1%N = (Fixture.store, (false, None)).
Proof.
  apply (DeleteTask_no_row Fixture.store "t3" 1%N); try discriminate.
  simpl. intros t [<-|[<-|[<-|[]]]] _; simpl; intros; discriminate.
Defined.

Lemma DeleteTask_owned_row_witness :
  snd (DeleteTask Fixture.store "t1" 1%N) = (true, None) /\
  (forall kind,
      GetTask (fst (DeleteTask Fixture.store "t1" 1%N)) "t1" 1%N kind
      = (None, Some ErrRecordNotFound)) /\
  (forall t', In t' (tasks Fixture.store) -> Id t' <> "t1" ->
              In t' (tasks (fst (DeleteTask Fixture.store "t1" 1%N)))).
Proof.
  apply (DeleteTask_owned_row Fixture.store "t1" 1%N
           (Sample.task "t1" "Buy milk" 1%N)); try discriminate; try reflexivity.
  simpl. auto.
Defined.

(** What the WHERE of [DeleteTask] selects has the owner of the call,
    blank id or not. *)
Lemma DeleteTask_selected_owner (taskId : string) (userId : uint64) (t : Task) :
  userId <> 0%N ->
  selected (set_UserId (set_Id Task_zero taskId) userId)
           (whereStruct (fields (set_UserId (set_Id Task_zero taskId) userId))) t
  = true ->
  UserId t = userId /\ DeletedAt t = None.
Proof.
  intros Hu. apply N.eqb_neq in Hu.
  unfold selected, visible, primaryCondition, primaryKey, whereStruct. cbn.
  rewrite Hu. destruct (String.eqb taskId ""); cbn;
    destruct (DeletedAt t); cbn; try discriminate; intros E.
  - apply andb_prop in E as [E _]. apply N.eqb_eq in E. auto.
  - apply andb_prop in E as [_ E]. apply andb_prop in E as [_ E].
    apply andb_prop in E as [E _]. apply N.eqb_eq in E. auto.
Qed.

(** X8. [DeleteTask] called for a user (a user id that is set) changes
    no task of another user, whatever id it is given, blank included: such
    rows are where they were, as they were, and the other tables are
    untouched. *)
Theorem DeleteTask_spares_other_users (db : gormDB) (taskId : string)
        (userId : uint64) :
  userId <> 0%N ->
  List.length (tasks (fst (DeleteTask db taskId userId))) = List.length (tasks db) /\
  (forall n t, nth_error (tasks db) n = Some t -> UserId t <> userId ->
               nth_error (tasks (fst (DeleteTask db taskId userId))) n = Some t) /\
  users (fst (DeleteTask db taskId userId)) = users db /\
  actions (fst (DeleteTask db taskId userId)) = actions db.
Proof.
  intros Hu. unfold DeleteTask, Delete.
  cbn [Error RowsAffected Table deletedAtOf Task_Model fst tasks users actions
       with_tasks].
  split; [now rewrite length_map|]. split; [|split; reflexivity].
  intros n t Hn Hother. rewrite nth_error_map, Hn. cbn [option_map].
  destruct (selected _ _ t) eqn:E; [|reflexivity].
  apply DeleteTask_selected_owner in E as [E _]; [contradiction|exact Hu].
Qed.

Lemma DeleteTask_spares_other_users_witness :
  nth_error (tasks (fst (DeleteTask Fixture.store "" 1%N))) 2
  = Some (Sample.task "t3" "Read" 2%N).
Proof.
  apply (proj1 (proj2 (DeleteTask_spares_other_users Fixture.store "" 1%N
                         ltac:(discriminate)))); [reflexivity|discriminate].
Defined.

(** X9. Deleting twice: with an id and a user id that are set, a second
    [DeleteTask] of the same id by the same user removes nothing, returns
    [(false, nil)] and leaves the store as the first left it. *)
Theorem DeleteTask_twice (db : gormDB) (taskId : string) (userId : uint64) :
  taskId <> "" -> userId <> 0%N ->
  DeleteTask (fst (DeleteTask db taskId userId)) taskId userId =
  (fst (DeleteTask db taskId userId), (false, None)).
Proof.
  intros Hid Hu. apply DeleteTask_no_row; [assumption..|].
  unfold DeleteTask, Delete.
  cbn [Error RowsAffected Table deletedAtOf Task_Model fst tasks with_tasks].
  intros t Hin Hd Hi Ho. apply in_map_iff in Hin as (a & Ea & Ha).
  destruct (selected _ _ a) eqn:Eh.
  - subst t. discriminate.
  - subst t. rewrite DeleteTask_selects in Eh by assumption.
    rewrite Hd, Hi, Ho, String.eqb_refl, N.eqb_refl in Eh. discriminate.
Qed.

Lemma DeleteTask_twice_witness :
  DeleteTask (fst (DeleteTask Fixture.store "t1" 1%N)) "t1" 1%N =
  (fst (DeleteTask Fixture.store "t1" 1%N), (false, None)).
Proof.
  apply (DeleteTask_twice Fixture.store "t1" 1%N); discriminate.
Defined.

(** X10. The id of a deleted task stays taken: the row is kept and
    marked, so an [AddTask] that brings the same id is refused with the
    primary-key conflict, and adds nothing. *)
Theorem deleted_id_stays_taken (db : gormDB) (taskId : string) (userId : uint64)
        (row task : Task) :
  In row (tasks db) -> Id row = taskId -> taskId <> "" -> Id task = taskId ->
  forall owner,
    snd (AddTask (fst (DeleteTask db taskId userId)) task owner) =
      Some (duplicate_key "tasks_pkey") /\
    tasks (fst (fst (AddTask (fst (DeleteTask db taskId userId)) task owner))) =
      tasks (fst (DeleteTask db taskId userId)).
Proof.
  intros Hin Hi Hid Ht owner.
  set (db1 := fst (DeleteTask db taskId userId)).
  assert (Htaken : keyTaken (tasks db1) (VString taskId) = true).
  { destruct (keyTaken (tasks db1) (VString taskId)) eqn:Ek; [reflexivity|].
    exfalso. pose proof (proj1 (keyTaken_tasks _ _) Ek) as Hfree.
    unfold db1, DeleteTask, Delete in Hfree.
    cbn [Error RowsAffected Table deletedAtOf Task_Model fst tasks with_tasks]
      in Hfree.
    apply (Hfree (if selected
                       (set_UserId (set_Id Task_zero taskId) userId)
                       (whereStruct
                          (fields (set_UserId (set_Id Task_zero taskId) userId)))
                       row
                  then set_DeletedAt row (NowFunc db) else row)).
    - apply in_map_iff. exists row. auto.
    - destruct (selected _ _ row); exact Hi. }
  unfold AddTask.
  destruct (Create_Task_cases db1 (set_UserId task owner)) as (db2 & Hsame & Hc).
  unfold new_task_id in Hc. change (Id (set_UserId task owner)) with (Id task) in Hc.
  apply String.eqb_neq in Hid. cbn [isBlank] in Hc. rewrite Ht, Hid, Htaken in Hc.
  rewrite Hc. cbn [fst snd]. auto.
Qed.

Lemma deleted_id_stays_taken_witness :
  snd (AddTask (fst (DeleteTask Fixture.store "t1" 1%N))
               (Sample.task "t1" "Buy milk" 1%N) 1%N)
  = Some (duplicate_key "tasks_pkey").
Proof.
  apply (deleted_id_stays_taken Fixture.store "t1" 1%N
           (Sample.task "t1" "Buy milk" 1%N) (Sample.task "t1" "Buy milk" 1%N));
    try reflexivity; try discriminate.
  simpl. auto.
Defined.

(** ** Actions *)

Lemma keyTaken_actions (acts : list Action) (id : string) :
  keyTaken acts (VString id) = false <-> forall a, In a acts -> Action_Id a <> id.
Proof.
  unfold keyTaken. induction acts as [|x acts IH]; simpl.
  - split; [intros _ a []|reflexivity].
  - rewrite orb_false_iff, IH. unfold primaryKey. cbn.
    rewrite String.eqb_neq. split.
    + intros [Hx Hts] a [<-|Ha]; auto.
    + intros Hall. split; [apply Hall; auto|]. intros a Ha. apply Hall. auto.
Qed.

(** A visible task of that id and owner is found. *)
Lemma GetTask_some (db : gormDB) (taskId : string) (userId : uint64) (row : Task) :
  In row (tasks db) -> DeletedAt row = None -> Id row = taskId ->
  UserId row = userId ->
  exists found,
    GetTask db taskId userId None = (Some (Preload_Actions db found), None) /\
    In found (tasks db) /\ Id found = taskId.
Proof.
  intros Hin Hd Hi Hu. rewrite GetTask_unfold. unfold First.
  destruct (least _) as [found|] eqn:E.
  - exists found. split; [reflexivity|]. apply least_In in E.
    apply filter_In in E as [Hf Hs]. split; [exact Hf|].
    unfold GetTask_conditions in Hs. now apply selected_GetTask in Hs as (_ & ? & _).
  - exfalso. apply least_nil_iff in E.
    assert (Hrow : In row (filter
                     (selected Task_zero
                        (whereMap (GetTask_conditions taskId userId None)))
                     (tasks db))).
    { apply filter_In. split; [exact Hin|].
      rewrite selected_GetTask_kind, Hd, Hi, Hu, String.eqb_refl, N.eqb_refl.
      reflexivity. }
    rewrite E in Hrow. contradiction.
Qed.

(** A successful [AddAction], spelled out. *)
Lemma AddAction_success (db db' : gormDB) (action stored : Action)
      (userId : uint64) :
  AddAction db action userId = (db', stored, None) ->
  (exists row, In row (tasks db) /\ DeletedAt row = None /\
               Id row = TaskId action /\ UserId row = userId) /\
  (forall a, In a (actions db) -> Action_Id a <> new_action_id db action) /\
  stored = set_Action_Id action (new_action_id db action) /\
  actions db' = (actions db ++ [stored])%list /\ tasks db' = tasks db.
Proof.
  unfold AddAction. intros E.
  destruct (GetTask db (TaskId action) userId None) as [task e] eqn:G.
  destruct task as [task|]; [|discriminate].
  destruct (GetTask_found db (TaskId action) userId None task) as (row & Hrow).
  { now rewrite G. }
  destruct e as [e|]; [discriminate|].
  split; [exists row; tauto|].
  revert E. unfold Create_Action, new_action_id.
  destruct (isBlank (VString (Action_Id action))); cbn [draw_uuid actions].
  - destruct (keyTaken (actions db) _) eqn:Ek; intros [= <- <-].
    pose proof (proj1 (keyTaken_actions _ _) Ek). repeat split; auto.
  - destruct (keyTaken (actions db) _) eqn:Ek; intros [= <- <-].
    pose proof (proj1 (keyTaken_actions _ _) Ek). repeat split; auto.
Qed.



(** What the lookup of [DeleteAction] selects when the id is set. *)
Lemma DeleteAction_selects (id : string) (a : Action) :
  id <> "" ->
  selected (set_Action_Id Action_zero id)
           (whereStruct (fields (set_Action_Id Action_zero id))) a
  = String.eqb (Action_Id a) id.
Proof.
  intros Hid. apply String.eqb_neq in Hid.
  unfold selected, visible, primaryCondition, primaryKey, whereStruct. cbn.
  rewrite Hid. cbn. destruct (String.eqb (Action_Id a) id); reflexivity.
Qed.

(** What the DELETE of [DeleteAction] selects for a found action. *)
Lemma DeleteAction_deletes (found a : Action) :
  Action_Id found <> "" ->
  selected found [] a = String.eqb (Action_Id a) (Action_Id found).
Proof.
  intros Hid. apply String.eqb_neq in Hid.
  unfold selected, visible, primaryCondition, primaryKey. cbn.
  rewrite Hid. cbn. now rewrite andb_true_r.
Qed.

(** The lookup of [DeleteAction], with an id that is set. *)
Lemma DeleteAction_lookup (db : gormDB) (id : string) :
  id <> "" ->
  (exists found,
      First (actions db) (whereStruct (fields (set_Action_Id Action_zero id)))
            (set_Action_Id Action_zero id) = Ok found /\
      In found (actions db) /\ Action_Id found = id) \/
  (First (actions db) (whereStruct (fields (set_Action_Id Action_zero id)))
         (set_Action_Id Action_zero id) = Err ErrRecordNotFound /\
   forall a, In a (actions db) -> Action_Id a <> id).
Proof.
  intros Hid. unfold First.
  destruct (least _) as [found|] eqn:E.
  - left. exists found. split; [reflexivity|]. apply least_In in E.
    apply filter_In in E as [Hin Hs]. rewrite DeleteAction_selects in Hs by assumption.
    apply String.eqb_eq in Hs. auto.
  - right. split; [reflexivity|]. apply least_nil_iff in E.
    intros a Ha Heq.
    assert (Hf : In a (filter
                   (selected (set_Action_Id Action_zero id)
                      (whereStruct (fields (set_Action_Id Action_zero id))))
                   (actions db))).
    { apply filter_In. split; [exact Ha|].
      rewrite DeleteAction_selects by assumption. now apply String.eqb_eq. }
    rewrite E in Hf. contradiction.
Qed.



(** X13. [DeleteAction] of an action whose parent task is a visible task
    of the caller, action ids being distinct: the action row is removed,
    the other actions and the tasks stay, and no error is returned. *)
Theorem DeleteAction_owned (db : gormDB) (id : string) (userId : uint64)
        (a : Action) (row : Task) :
  id <> "" -> NoDup (map Action_Id (actions db)) ->
  In a (actions db) -> Action_Id a = id ->
  In row (tasks db) -> DeletedAt row = None -> Id row = TaskId a ->
  UserId row = userId ->
  snd (DeleteAction db id userId) = None /\
  tasks (fst (DeleteAction db id userId)) = tasks db /\
  (forall x, In x (actions (fst (DeleteAction db id userId))) <->
             In x (actions db) /\ x <> a).
Proof.
  intros Hid ND Hin Ha Hr Hd Hi Hu. unfold DeleteAction.
  destruct (DeleteAction_lookup db id Hid) as [(found & -> & Hfin & Hf)|[_ Hno]].
  2:{ exfalso. exact (Hno a Hin Ha). }
  assert (found = a) by (apply (NoDup_map_inj Action_Id (actions db)); congruence).
  subst found.
  destruct (GetTask_some db _ _ row Hr Hd Hi Hu) as (task & -> & _).
  unfold Delete. cbn [Error Table deletedAtOf Action_Model fst snd tasks actions
                      with_actions].
  split; [reflexivity|]. split; [reflexivity|].
  intros x. rewrite filter_In. rewrite DeleteAction_deletes by congruence.
  rewrite negb_true_iff, String.eqb_neq. split.
  - intros [Hx Hne]. split; [exact Hx|]. intros ->. now apply Hne.
  - intros [Hx Hne]. split; [exact Hx|]. intros Heq. apply Hne.
    apply (NoDup_map_inj Action_Id (actions db)); auto.
Qed.

Lemma DeleteAction_owned_witness :
  snd (DeleteAction Fixture.store "a1" 1%N) = None /\
  tasks (fst (DeleteAction Fixture.store "a1" 1%N)) = tasks Fixture.store /\
  (forall x, In x (actions (fst (DeleteAction Fixture.store "a1" 1%N))) <->
             In x (actions Fixture.store) /\ x <> Fixture.action "a1" "t1").
Proof.
  apply (DeleteAction_owned Fixture.store "a1" 1%N (Fixture.action "a1" "t1")
           (Sample.task "t1" "Buy milk" 1%N)); try reflexivity; try discriminate.
  - simpl. repeat constructor; simpl; intuition discriminate.
  - simpl. auto.
  - simpl. auto.
Defined.

(** X14. Whatever it is called with, [DeleteAction] returns no error
    other than record-not-found: the "Not authorized to delete action"
    error of its last check is never returned, the error of the task lookup
    being returned before; and when it returns an error the store is as it
    was. *)
Theorem DeleteAction_only_error (db : gormDB) (id : string) (userId : uint64)
        (err : error) :
  snd (DeleteAction db id userId) = Some err ->
  err = ErrRecordNotFound /\ fst (DeleteAction db id userId) = db.
Proof.
  unfold DeleteAction.
  destruct (First (actions db) _ _) as [found|e] eqn:F.
  - destruct (GetTask_shape db (TaskId found) userId None) as [[task ->]| ->].
    + unfold Delete. cbn [Error snd]. discriminate.
    + cbn [snd fst]. intros [= <-]. auto.
  - cbn [snd fst]. intros [= <-]. split; [|reflexivity].
    unfold First in F. destruct (least _); [discriminate|]. congruence.
Qed.

Lemma DeleteAction_only_error_witness :
  ErrRecordNotFound = ErrRecordNotFound /\
  fst (DeleteAction Fixture.store "a2" 1%N) = Fixture.store.
Proof.
  apply (DeleteAction_only_error Fixture.store "a2" 1%N ErrRecordNotFound).
  reflexivity.
Defined.

(** X15. An action added with [AddAction] and then deleted by the same
    user with [DeleteAction] under the id it was given: the delete
    succeeds, and the action table is back to what it was before the
    add. *)
Theorem AddAction_then_DeleteAction (db db' : gormDB) (action stored : Action)
        (userId : uint64) :
  AddAction db action userId = (db', stored, None) ->
  Action_Id stored <> "" ->
  snd (DeleteAction db' (Action_Id stored) userId) = None /\
  actions (fst (DeleteAction db' (Action_Id stored) userId)) = actions db /\
  tasks (fst (DeleteAction db' (Action_Id stored) userId)) = tasks db.
Proof.
  intros E Hid.
  apply AddAction_success in E
    as ((row & Hr & Hd & Hi & Hu) & Hfresh & Hs & Ha & Ht).
  assert (Hstored : Action_Id stored = new_action_id db action)
    by (subst stored; reflexivity).
  assert (Hparent : TaskId stored = TaskId action) by (subst stored; reflexivity).
  unfold DeleteAction.
  destruct (DeleteAction_lookup db' (Action_Id stored) Hid)
    as [(found & -> & Hfin & Hf)|[_ Hno]].
  2:{ exfalso. apply (Hno stored); [|reflexivity].
      rewrite Ha. apply in_or_app. simpl. auto. }
  assert (found = stored).
  { rewrite Ha in Hfin. apply in_app_or in Hfin as [Hold|[<-|[]]]; [|reflexivity].
    exfalso. apply (Hfresh found Hold). congruence. }
  subst found.
  assert (Hr' : In row (tasks db')) by now rewrite Ht.
  destruct (GetTask_some db' (TaskId stored) userId row Hr' Hd) as (task & -> & _);
    [congruence|exact Hu|].
  unfold Delete. cbn [Error Table deletedAtOf Action_Model fst snd tasks actions
                      with_actions].
  split; [reflexivity|]. split; [|exact Ht].
  rewrite Ha, filter_app. cbn [filter].
  rewrite DeleteAction_deletes by assumption. rewrite String.eqb_refl. cbn [negb].
  rewrite app_nil_r. clear - Hfresh Hstored Hid.
  induction (actions db) as [|x l IH]; simpl; [reflexivity|].
  rewrite DeleteAction_deletes by assumption.
  destruct (String.eqb_spec (Action_Id x) (Action_Id stored)) as [Heq|_].
  - exfalso. apply (Hfresh x); [simpl; auto|congruence].
  - cbn [negb]. f_equal. apply IH. intros a Hin. apply Hfresh. simpl. auto.
Qed.

Lemma AddAction_then_DeleteAction_witness :
  exists db' stored,
    AddAction Fixture.store (Fixture.action "" "t1") 1%N = (db', stored, None) /\
    snd (DeleteAction db' (Action_Id stored) 1%N) = None /\
    actions (fst (DeleteAction db' (Action_Id stored) 1%N)) = actions Fixture.store.
Proof.
  destruct (AddAction Fixture.store (Fixture.action "" "t1") 1%N)
    as [[db' stored] err] eqn:E.
  assert (Herr : err = None) by (vm_compute in E; congruence). subst err.
  assert (Hid : Action_Id stored <> "").
  { vm_compute in E. injection E as _ <-. discriminate. }
  exists db', stored. split; [reflexivity|].
  destruct (AddAction_then_DeleteAction Fixture.store db' (Fixture.action "" "t1")
              stored 1%N E Hid) as (H1 & H2 & _).
  auto.
Defined.

(** ** Users *)

Lemma keyTaken_users (us : list User) (id : uint64) :
  keyTaken us (VUint id) = false <-> forall u, In u us -> User_Id u <> id.
Proof.
  unfold keyTaken. induction us as [|x us IH]; simpl.
  - split; [intros _ a []|reflexivity].
  - rewrite orb_false_iff, IH. unfold primaryKey. cbn.
    rewrite N.eqb_neq. split.
    + intros [Hx Hts] a [<-|Ha]; auto.
    + intros Hall. split; [apply Hall; auto|]. intros a Ha. apply Hall. auto.
Qed.

Lemma username_free (us : list User) (name : string) :
  existsb (fun u => String.eqb (Username u) name) us = false <->
  forall u, In u us -> Username u <> name.
Proof.
  induction us as [|x us IH]; simpl.
  - split; [intros _ a []|reflexivity].
  - rewrite orb_false_iff, IH, String.eqb_neq. split.
    + intros [Hx Hts] a [<-|Ha]; auto.
    + intros Hall. split; [apply Hall; auto|]. intros a Ha. apply Hall. auto.
Qed.

(** X16. A [CreateUser] that succeeds: the user handed back is the row
    appended to the user table, under the next id of the serial and the
    username given; what it holds as password is what bcrypt made of the
    password at the cost constant; no row had that id or that username
    before; tasks and actions are untouched. *)
Theorem CreateUser_success `{B : Bcrypt} (db db' : gormDB)
        (username password : string) (user : User) :
  CreateUser db username password = (db', (Some user, None)) ->
  GenerateFromPassword password bcryptCost = Ok (HashedPassword user) /\
  Username user = username /\
  User_Id user = (users_id_seq db + 1)%N /\
  User_DeletedAt user = None /\
  users db' = (users db ++ [user])%list /\
  (forall u, In u (users db) ->
             User_Id u <> User_Id user /\ Username u <> username) /\
  tasks db' = tasks db /\ actions db' = actions db.
Proof.
  unfold CreateUser.
  destruct (GenerateFromPassword password bcryptCost) as [hashed|e]; [|discriminate].
  unfold Create_User. cbn [isBlank User_Id N.eqb draw_user_id users Username].
  destruct (keyTaken (users db) _) eqn:Ek; [discriminate|].
  destruct (existsb _ (users db)) eqn:Eu; [discriminate|].
  intros [= <- <-]. cbn.
  pose proof (proj1 (keyTaken_users _ _) Ek) as Hid.
  pose proof (proj1 (username_free _ _) Eu) as Hname.
  repeat split; auto.
Qed.

Lemma CreateUser_success_witness :
  exists db' user,
    CreateUser (H := Sample.bcrypt) Fixture.store "carol" "pw3"
      = (db', (Some user, None)) /\
    User_Id user = 3%N /\ HashedPassword user = "$2a$10$707733".
Proof.
  destruct (CreateUser (H := Sample.bcrypt) Fixture.store "carol" "pw3")
    as [db' [[user|] [err|]]] eqn:E; try (vm_compute in E; discriminate).
  exists db', user. split; [reflexivity|].
  destruct (CreateUser_success (B := Sample.bcrypt) Fixture.store db' "carol" "pw3"
              user E) as (Hh & _ & Hi & _).
  split; [exact Hi|].
  change (Ok "$2a$10$707733" = Ok (HashedPassword user)) in Hh.
  now injection Hh as <-.
Defined.

(** X17. A [CreateUser] under a username that a row of the user table
    already has (a deleted row too) returns an error and no user, and adds
    no row. *)
Theorem CreateUser_duplicate `{B : Bcrypt} (db : gormDB)
        (username password : string) (existing : User) :
  In existing (users db) -> Username existing = username ->
  exists err,
    snd (CreateUser db username password) = (None, Some err) /\
    users (fst (CreateUser db username password)) = users db.
Proof.
  intros Hin Hname. unfold CreateUser.
  destruct (GenerateFromPassword password bcryptCost) as [hashed|e];
    [|eexists; split; reflexivity].
  unfold Create_User. cbn [isBlank User_Id N.eqb draw_user_id users Username].
  destruct (keyTaken (users db) _); [eexists; split; reflexivity|].
  destruct (existsb _ (users db)) eqn:Eu; [eexists; split; reflexivity|].
  exfalso. exact (proj1 (username_free _ _) Eu existing Hin Hname).
Qed.

Lemma CreateUser_duplicate_witness :
  exists err,
    snd (CreateUser (H := Sample.bcrypt) Fixture.store "bob" "pw") = (None, Some err) /\
    users (fst (CreateUser (H := Sample.bcrypt) Fixture.store "bob" "pw"))
    = users Fixture.store.
Proof.
  apply (CreateUser_duplicate (B := Sample.bcrypt) Fixture.store "bob" "pw"
           (Fixture.user 2%N "bob")); [simpl; auto|reflexivity].
Defined.

(** What the lookups of users select. *)
Lemma GetUserByUsername_selects (username : string) (u : User) :
  username <> "" ->
  selected (set_Username User_zero username)
           (whereStruct (fields (set_Username User_zero username))) u
  = match User_DeletedAt u with
    | None => String.eqb (Username u) username
    | Some _ => false
    end.
Proof.
  intros Hn. apply String.eqb_neq in Hn.
  unfold selected, visible, primaryCondition, primaryKey, whereStruct. cbn.
  rewrite Hn. destruct (User_DeletedAt u); cbn; [reflexivity|].
  now rewrite andb_true_r.
Qed.

Lemma GetUserById_selects (id : uint64) (u : User) :
  id <> 0%N ->
  selected (set_User_Id User_zero id)
           (whereStruct (fields (set_User_Id User_zero id))) u
  = match User_DeletedAt u with
    | None => N.eqb (User_Id u) id
    | Some _ => false
    end.
Proof.
  intros Hn. apply N.eqb_neq in Hn.
  unfold selected, visible, primaryCondition, primaryKey, whereStruct. cbn.
  rewrite Hn. destruct (User_DeletedAt u); cbn; [reflexivity|].
  destruct (N.eqb (User_Id u) id); reflexivity.
Qed.

(** X18. A user made by [CreateUser] is found again, right after, both
    by [GetUserByUsername] under the username (when it is not empty) and by
    [GetUserById] under the id handed back. *)
Theorem CreateUser_then_lookup `{B : Bcrypt} (db db' : gormDB)
        (username password : string) (user : User) :
  CreateUser db username password = (db', (Some user, None)) ->
  GetUserById db' (User_Id user) = (Some user, None) /\
  (username <> "" -> GetUserByUsername db' username = (Some user, None)).
Proof.
  intros E.
  assert (Htasks : Tasks user = []).
  { revert E. unfold CreateUser.
    destruct (GenerateFromPassword password bcryptCost); [|discriminate].
    unfold Create_User. cbn [isBlank User_Id N.eqb draw_user_id users Username].
    destruct (keyTaken _ _); [discriminate|].
    destruct (existsb _ _); [discriminate|]. now intros [= <- <-]. }
  apply CreateUser_success in E as (_ & Hn & Hi & Hd & Hu & Hfresh & _).
  assert (Hsame : set_Tasks user [] = user).
  { destruct user; cbn in *; subst; reflexivity. }
  assert (Hid : User_Id user <> 0%N) by (rewrite Hi; lia).
  split.
  - unfold GetUserById, First. rewrite Hu, filter_app.
    replace (filter _ (users db)) with (@nil User).
    + cbn [filter app]. rewrite GetUserById_selects by assumption.
      rewrite Hd, N.eqb_refl. cbn. now rewrite Hsame.
    + symmetry. apply filter_nil_iff. intros u Hin.
      rewrite GetUserById_selects by assumption.
      destruct (User_DeletedAt u); [reflexivity|].
      apply N.eqb_neq. exact (proj1 (Hfresh u Hin)).
  - intros Hne. unfold GetUserByUsername, First. rewrite Hu, filter_app.
    replace (filter _ (users db)) with (@nil User).
    + cbn [filter app]. rewrite GetUserByUsername_selects by assumption.
      rewrite Hd, Hn, String.eqb_refl. cbn. now rewrite Hsame.
    + symmetry. apply filter_nil_iff. intros u Hin.
      rewrite GetUserByUsername_selects by assumption.
      destruct (User_DeletedAt u); [reflexivity|].
      apply String.eqb_neq. exact (proj2 (Hfresh u Hin)).
Qed.

Lemma CreateUser_then_lookup_witness :
  exists db' user,
    CreateUser (H := Sample.bcrypt) Fixture.store "carol" "pw3"
      = (db', (Some user, None)) /\
    GetUserById db' (User_Id user) = (Some user, None) /\
    GetUserByUsername db' "carol" = (Some user, None).
Proof.
  destruct (CreateUser (H := Sample.bcrypt) Fixture.store "carol" "pw3")
    as [db' [[user|] [err|]]] eqn:E; try (vm_compute in E; discriminate).
  exists db', user. split; [reflexivity|].
  destruct (CreateUser_then_lookup (B := Sample.bcrypt) Fixture.store db' "carol"
              "pw3" user E) as [H1 H2].
  split; [exact H1|]. apply H2. discriminate.
Defined.

(** X19. With an empty username, or the id zero, the lookup has no
    condition at all: [GetUserByUsername("")] and [GetUserById(0)] both
    return the visible user of least id, whoever it is, and fail only when
    the table has no visible user. *)
Theorem blank_user_lookup_returns_first (db : gormDB) :
  GetUserByUsername db "" = GetUserById db 0%N /\
  (forall u, In u (users db) -> User_DeletedAt u = None ->
             exists first,
               GetUserById db 0%N = (Some (set_Tasks first []), None) /\
               In first (users db) /\ User_DeletedAt first = None /\
               (User_Id first <= User_Id u)%N).
Proof.
  split; [reflexivity|].
  intros u Hin Hd. unfold GetUserById, First.
  assert (Hsel : forall x,
             selected (set_User_Id User_zero 0%N)
               (whereStruct (fields (set_User_Id User_zero 0%N))) x
             = match User_DeletedAt x with None => true | Some _ => false end).
  { intros x. unfold selected, visible, primaryCondition, primaryKey, whereStruct.
    cbn. destruct (User_DeletedAt x); reflexivity. }
  assert (Hleast : forall l, In u l ->
             exists first, least l = Some first /\ In first l /\
                           (User_Id first <= User_Id u)%N).
  { clear. induction l as [|x l IH]; simpl; [contradiction|].
    intros [->|Hin].
    - destruct (least l) as [b|] eqn:E.
      + unfold primaryKey. cbn. destruct (N.leb_spec (User_Id u) (User_Id b)).
        * exists u. repeat split; auto. lia.
        * exists b. repeat split; [right; now apply least_In|lia].
      + exists u. repeat split; auto. lia.
    - destruct (IH Hin) as (first & -> & Hf & Hle).
      unfold primaryKey. cbn. destruct (N.leb_spec (User_Id x) (User_Id first)).
      + exists x. repeat split; auto. lia.
      + exists first. repeat split; auto. }
  destruct (Hleast (filter
                      (selected (set_User_Id User_zero 0%N)
                         (whereStruct (fields (set_User_Id User_zero 0%N))))
                      (users db))) as (first & -> & Hf & Hle).
  { apply filter_In. split; [exact Hin|]. now rewrite Hsel, Hd. }
  apply filter_In in Hf as [Hf Hs]. rewrite Hsel in Hs.
  exists first. repeat split; auto.
  destruct (User_DeletedAt first); [discriminate|reflexivity].
Qed.

Lemma blank_user_lookup_returns_first_witness :
  GetUserByUsername Fixture.store "" = (Some (Fixture.user 1%N "alice"), None).
Proof.
  rewrite (proj1 (blank_user_lookup_returns_first Fixture.store)).
  reflexivity.
Defined.

(** X20. With a username that is not empty, [GetUserByUsername] returns
    a user only if a visible row has that username, and the user returned
    has it; with no such row it returns record-not-found. The same holds of
    [GetUserById] with an id other than zero. *)
Theorem user_lookup_exact (db : gormDB) (username : string) (id : uint64) :
  username <> "" -> id <> 0%N ->
  (forall user, fst (GetUserByUsername db username) = Some user ->
                Username user = username /\ User_DeletedAt user = None) /\
  ((forall u, In u (users db) -> User_DeletedAt u = None -> Username u <> username) ->
   GetUserByUsername db username = (None, Some ErrRecordNotFound)) /\
  (forall user, fst (GetUserById db id) = Some user ->
                User_Id user = id /\ User_DeletedAt user = None) /\
  ((forall u, In u (users db) -> User_DeletedAt u = None -> User_Id u <> id) ->
   GetUserById db id = (None, Some ErrRecordNotFound)).
Proof.
  intros Hn Hi. repeat split.
  - revert H. unfold GetUserByUsername, First.
    destruct (least _) as [row|] eqn:E; [|discriminate]. intros [= <-].
    apply least_In in E. apply filter_In in E as [_ E].
    rewrite GetUserByUsername_selects in E by assumption.
    destruct (User_DeletedAt row); [discriminate|]. now apply String.eqb_eq in E.
  - revert H. unfold GetUserByUsername, First.
    destruct (least _) as [row|] eqn:E; [|discriminate]. intros [= <-].
    apply least_In in E. apply filter_In in E as [_ E].
    rewrite GetUserByUsername_selects in E by assumption. cbn.
    destruct (User_DeletedAt row); [discriminate|reflexivity].
  - intros Hnone. unfold GetUserByUsername, First.
    replace (filter _ (users db)) with (@nil User); [reflexivity|].
    symmetry. apply filter_nil_iff. intros u Hin.
    rewrite GetUserByUsername_selects by assumption.
    destruct (User_DeletedAt u) eqn:Ed; [reflexivity|].
    apply String.eqb_neq. auto.
  - revert H. unfold GetUserById, First.
    destruct (least _) as [row|] eqn:E; [|discriminate]. intros [= <-].
    apply least_In in E. apply filter_In in E as [_ E].
    rewrite GetUserById_selects in E by assumption.
    destruct (User_DeletedAt row); [discriminate|]. now apply N.eqb_eq in E.
  - revert H. unfold GetUserById, First.
    destruct (least _) as [row|] eqn:E; [|discriminate]. intros [= <-].
    apply least_In in E. apply filter_In in E as [_ E].
    rewrite GetUserById_selects in E by assumption. cbn.
    destruct (User_DeletedAt row); [discriminate|reflexivity].
  - intros Hnone. unfold GetUserById, First.
    replace (filter _ (users db)) with (@nil User); [reflexivity|].
    symmetry. apply filter_nil_iff. intros u Hin.
    rewrite GetUserById_selects by assumption.
    destruct (User_DeletedAt u) eqn:Ed; [reflexivity|].
    apply N.eqb_neq. auto.
Qed.

Lemma user_lookup_exact_witness :
  GetUserByUsername Fixture.store "carol" = (None, Some ErrRecordNotFound) /\
  GetUserById Fixture.store 9%N = (None, Some ErrRecordNotFound).
Proof.
  destruct (user_lookup_exact Fixture.store "carol" 9%N ltac:(discriminate)
              ltac:(discriminate)) as (_ & H1 & _ & H2).
  split.
  - apply H1. simpl. intros u [<-|[<-|[]]] _; discriminate.
  - apply H2. simpl. intros u [<-|[<-|[]]] _; discriminate.
Defined.

(** * Further properties of the token handlers *)

Section TokenChecks.
Context `{W : Jwt.Wire DuetClaims}.

(** [VerifyToken] returns claims or an error, never both and never
    neither. *)
Lemma VerifyToken_shape (tokenString : string) :
  (exists claims, snd (VerifyToken tokenString) = (Some claims, None)) \/
  (exists err, snd (VerifyToken tokenString) = (None, Some err)).
Proof.
  unfold VerifyToken.
  destruct (Jwt.ParseWithClaims DuetClaims_Valid tokenString DuetClaims_zero
              VerifyToken_keyFunc) as [token [err|]];
    [right; eexists; reflexivity|].
  destruct token as [token|]; [|right; eexists; reflexivity].
  destruct (Jwt.Valid token); [left|right]; eexists; reflexivity.
Qed.

(** X21. [VerifyToken] returns claims only for a token of three
    segments whose header decodes and names HS256, whose second segment
    decodes to the claims returned, whose third segment decodes to the
    HS256 tag of the first two under the service's secret, and whose
    claims pass the time checks at the time of the call. *)
Theorem VerifyToken_accepts_only_signed (tokenString : string)
        (claims : DuetClaims) :
  fst (snd (VerifyToken tokenString)) = Some claims ->
  exists part0 part1 part2 headerBytes header claimBytes,
    Jwt.Split "." tokenString = [part0; part1; part2] /\
    Jwt.DecodeSegment part0 = Ok headerBytes /\
    Jwt.Unmarshal_Header headerBytes = Ok header /\
    Jwt.header_get header "alg" = Some (Jwt.JString "HS256") /\
    Jwt.DecodeSegment part1 = Ok claimBytes /\
    Jwt.Unmarshal_Claims claimBytes = Ok claims /\
    Jwt.DecodeSegment part2 =
      Ok (Jwt.HMAC Jwt.SHA256 tokenSecret (part0 ++ "." ++ part1)) /\
    Jwt.Errors (DuetClaims_Valid Jwt.TimeFunc claims) = 0%N.
Proof.
  intros Hacc.
  destruct (Jwt.Split "." tokenString) as [|p0 [|p1 [|p2 [|p3 l]]]] eqn:Hs;
    try (rewrite VerifyToken_segment_count in Hacc;
         [discriminate|rewrite Hs; simpl; lia]).
  destruct (Jwt.DecodeSegment p0) as [hb|e0] eqn:E0.
  2:{ destruct (VerifyToken_undecodable _ _ _ _ Hs) as (i & t & E); [eauto|].
      rewrite E in Hacc. discriminate. }
  destruct (Jwt.Unmarshal_Header hb) as [header|eh] eqn:Eh.
  2:{ destruct (VerifyToken_undecodable _ _ _ _ Hs) as (i & t & E); [eauto 6|].
      rewrite E in Hacc. discriminate. }
  destruct (Jwt.DecodeSegment p1) as [cb|e1] eqn:E1.
  2:{ destruct (VerifyToken_undecodable _ _ _ _ Hs) as (i & t & E); [eauto 6|].
      rewrite E in Hacc. discriminate. }
  destruct (Jwt.Unmarshal_Claims cb) as [decoded|ec] eqn:Ec.
  2:{ destruct (VerifyToken_undecodable _ _ _ _ Hs) as (i & t & E); [eauto 8|].
      rewrite E in Hacc. discriminate. }
  rewrite (VerifyToken_parsed _ _ _ _ _ _ _ _ Hs E0 Eh E1 Ec) in Hacc.
  destruct (Jwt.header_get header "alg") as [[alg|raw]|] eqn:Ea;
    try discriminate.
  destruct (Jwt.GetSigningMethod alg) as [method|] eqn:Em; [|discriminate].
  destruct (String.eqb (Jwt.Alg method) (Jwt.Alg Jwt.HS256)) eqn:Eq;
    [|discriminate].
  apply Alg_HS256 in Eq. subst method. apply GetSigningMethod_Alg in Em.
  cbn [Jwt.Alg] in Em. subst alg.
  cbv zeta in Hacc. unfold Jwt.Verify in Hacc. cbn [Jwt.hash_of] in Hacc.
  exists p0, p1, p2, hb, header, cb.
  destruct (Jwt.DecodeSegment p2) as [sig|e2] eqn:E2.
  - destruct (String.eqb_spec sig
                (Jwt.HMAC Jwt.SHA256 tokenSecret (p0 ++ "." ++ p1))) as [->|Hne].
    + destruct (N.eqb_spec (Jwt.Errors (DuetClaims_Valid Jwt.TimeFunc decoded)) 0)
        as [Hz|Hnz]; [|discriminate].
      injection Hacc as <-. repeat split; auto.
    + exfalso. cbn [Jwt.Errors] in Hacc.
      destruct (N.eqb_spec
                  (N.lor (Jwt.Errors (DuetClaims_Valid Jwt.TimeFunc decoded))
                         Jwt.ValidationErrorSignatureInvalid) 0) as [Hz|_];
        [|discriminate].
      pose proof (signature_bit_set
                    (Jwt.Errors (DuetClaims_Valid Jwt.TimeFunc decoded))) as Hb.
      rewrite Hz in Hb. discriminate.
  - exfalso. cbn [Jwt.Errors] in Hacc.
    destruct (N.eqb_spec
                (N.lor (Jwt.Errors (DuetClaims_Valid Jwt.TimeFunc decoded))
                       Jwt.ValidationErrorSignatureInvalid) 0) as [Hz|_];
      [|discriminate].
    pose proof (signature_bit_set
                  (Jwt.Errors (DuetClaims_Valid Jwt.TimeFunc decoded))) as Hb.
    rewrite Hz in Hb. discriminate.
Qed.

(** X22. A token whose claims carry an expiry that has passed is
    rejected even when it is signed under the service's secret: the error
    has the expired bit. *)
Theorem VerifyToken_expired
        (tokenString part0 part1 part2 : string) (headerBytes claimBytes : bytes)
        (header : Jwt.Header) (claims : DuetClaims) :
  Jwt.Split "." tokenString = [part0; part1; part2] ->
  Jwt.DecodeSegment part0 = Ok headerBytes ->
  Jwt.Unmarshal_Header headerBytes = Ok header ->
  Jwt.DecodeSegment part1 = Ok claimBytes ->
  Jwt.Unmarshal_Claims claimBytes = Ok claims ->
  Jwt.header_get header "alg" = Some (Jwt.JString "HS256") ->
  Jwt.ExpiresAt (StandardClaims claims) <> 0 ->
  Jwt.ExpiresAt (StandardClaims claims) < Jwt.TimeFunc ->
  exists err,
    snd (VerifyToken tokenString) = (None, Some err) /\
    has_flag err Jwt.ValidationErrorExpired = true.
Proof.
  intros Hs H0 Hh H1 Hc Halg Hset Hpast.
  rewrite (VerifyToken_parsed _ _ _ _ _ _ _ _ Hs H0 Hh H1 Hc), Halg.
  cbn [Jwt.GetSigningMethod Jwt.registered find Jwt.Alg String.eqb Ascii.eqb
       Bool.eqb].
  cbv zeta.
  assert (Hbit : forall errs, N.testbit errs 4 = true ->
                   N.eqb errs 0 = false /\
                   negb (N.eqb (N.land errs Jwt.ValidationErrorExpired) 0) = true).
  { intros errs Ht. split.
    - apply N.eqb_neq. intros ->. discriminate.
    - apply negb_true_iff, N.eqb_neq. intros Hz.
      assert (Hb : N.testbit (N.land errs Jwt.ValidationErrorExpired) 4 = true)
        by (rewrite N.land_spec, Ht; reflexivity).
      rewrite Hz in Hb. discriminate. }
  assert (Hexp : N.testbit (Jwt.Errors (DuetClaims_Valid Jwt.TimeFunc claims)) 4
                 = true).
  { unfold DuetClaims_Valid, Jwt.StandardClaims_Valid, Jwt.flag, Jwt.verifyExp.
    apply Z.eqb_neq in Hset. rewrite Hset.
    assert (Hlt : Z.leb Jwt.TimeFunc (Jwt.ExpiresAt (StandardClaims claims)) = false)
      by (apply Z.leb_gt; exact Hpast).
    rewrite Hlt. cbn [negb].
    destruct (negb (Jwt.verifyIat _ _ _)), (negb (Jwt.verifyNbf _ _ _));
      cbn [Jwt.Errors]; rewrite ?N.lor_spec; reflexivity. }
  destruct (Jwt.Verify Jwt.HS256 (part0 ++ "." ++ part1) part2 tokenSecret)
    as [err|].
  - cbn [Jwt.Errors Jwt.Inner].
    destruct (Hbit (N.lor (Jwt.Errors (DuetClaims_Valid Jwt.TimeFunc claims))
                          Jwt.ValidationErrorSignatureInvalid)) as [Hz Hf].
    { rewrite N.lor_spec, Hexp. reflexivity. }
    rewrite Hz. eexists. split; [reflexivity|exact Hf].
  - destruct (Hbit _ Hexp) as [Hz Hf]. rewrite Hz.
    eexists. split; [reflexivity|exact Hf].
Qed.

(** The token of a login, verified. *)
Lemma VerifyToken_login_token (username : string) :
  wire_carries username ->
  VerifyToken
    (Jwt.SigningString (Jwt.NewWithClaims Jwt.HS256 (login_claims username))
     ++ "."
     ++ Jwt.EncodeSegment
          (Jwt.HMAC Jwt.SHA256 tokenSecret
             (Jwt.SigningString
                (Jwt.NewWithClaims Jwt.HS256 (login_claims username)))))
  = ([log_Printf
        ("Verifying token "
         ++ (Jwt.SigningString (Jwt.NewWithClaims Jwt.HS256 (login_claims username))
             ++ "."
             ++ Jwt.EncodeSegment
                  (Jwt.HMAC Jwt.SHA256 tokenSecret
                     (Jwt.SigningString
                        (Jwt.NewWithClaims Jwt.HS256 (login_claims username)))))
         ++ newline)],
     (Some (login_claims username), None)).
Proof.
  intros (Hh & Hc & [Dh Nh] & [Dc Nc] & [Dt Nt]).
  assert (Hlog : forall t, fst (VerifyToken t)
                           = [log_Printf ("Verifying token " ++ t ++ newline)]).
  { intros t. unfold VerifyToken.
    destruct (Jwt.ParseWithClaims _ _ _ _) as [token [err|]]; [reflexivity|].
    destruct token as [token|]; [|reflexivity].
    destruct (Jwt.Valid token); reflexivity. }
  rewrite (surjective_pairing (VerifyToken _)), Hlog. f_equal.
  unfold Jwt.SigningString in *.
  cbn [Jwt.NewWithClaims Jwt.Token_Header Jwt.Token_Claims Jwt.Alg] in *.
  rewrite (VerifyToken_parsed _ _ _ _ _ _ _ _
             (Split_three _ _ _ Nh Nc Nt) Dh Hh Dc Hc).
  cbn [Jwt.header_get Jwt.NewWithClaims Jwt.Token_Header find fst snd
       String.eqb Ascii.eqb Bool.eqb Jwt.Alg Jwt.Token_Claims].
  cbn [Jwt.GetSigningMethod Jwt.registered find Jwt.Alg String.eqb Ascii.eqb
       Bool.eqb].
  cbv zeta. unfold Jwt.Verify. cbn [Jwt.hash_of].
  rewrite Dt, String.eqb_refl. reflexivity.
Qed.

End TokenChecks.

Lemma VerifyToken_accepts_only_signed_witness :
  exists part0 part1 part2 headerBytes header claimBytes,
    Jwt.Split "." (Sample.forge "HS256" "alice" tokenSecret) = [part0; part1; part2] /\
    Jwt.DecodeSegment (Wire := Sample.wire) part0 = Ok headerBytes /\
    Jwt.Unmarshal_Header (Wire := Sample.wire) headerBytes = Ok header /\
    Jwt.header_get header "alg" = Some (Jwt.JString "HS256") /\
    Jwt.DecodeSegment (Wire := Sample.wire) part1 = Ok claimBytes /\
    Jwt.Unmarshal_Claims (Wire := Sample.wire) claimBytes = Ok (login_claims "alice") /\
    Jwt.DecodeSegment (Wire := Sample.wire) part2 =
      Ok (Jwt.HMAC (Wire := Sample.wire) Jwt.SHA256 tokenSecret
            (part0 ++ "." ++ part1)) /\
    Jwt.Errors (DuetClaims_Valid (Jwt.TimeFunc (Wire := Sample.wire))
                  (login_claims "alice")) = 0%N.
Proof.
  apply (VerifyToken_accepts_only_signed (W := Sample.wire)
           (Sample.forge "HS256" "alice" tokenSecret) (login_claims "alice")).
  vm_compute. reflexivity.
Defined.

Lemma VerifyToken_expired_witness :
  exists err,
    snd (VerifyToken (H := Sample.wire) Fixture.expired_token) = (None, Some err) /\
    has_flag err Jwt.ValidationErrorExpired = true.
Proof.
  eapply (VerifyToken_expired (W := Sample.wire) Fixture.expired_token);
    try (vm_compute; reflexivity).
  vm_compute. discriminate.
Defined.

Lemma prefix_drop (p s : string) :
  String.prefix p s = true -> s = p ++ drop (String.length p) s.
Proof.
  revert s. induction p as [|a p IH]; intros s E; [reflexivity|].
  destruct s as [|b s]; [discriminate|].
  cbn [String.prefix] in E.
  destruct (ascii_dec a b) as [->|]; [|discriminate].
  simpl. f_equal. now apply IH.
Qed.

Lemma prefix_app (p s : string) : String.prefix p (p ++ s) = true.
Proof.
  induction p as [|a p IH]; simpl; [destruct s; reflexivity|].
  destruct (ascii_dec a a) as [_|Hne]; [exact IH|now elim Hne].
Qed.

Section VerifyHandler.
Context `{W : Jwt.Wire DuetClaims}.

(** [ServeVerifyToken] on a bearer header. *)
Lemma ServeVerifyToken_bearer (tokenString : string) :
  ServeVerifyToken ("Bearer " ++ tokenString) =
  (map rest_effect (fst (VerifyToken tokenString))
   ++ match snd (snd (VerifyToken tokenString)) with
      | Some err => [rest_effect (rest_Error (Error_string err) StatusUnauthorized)]
      | None =>
          match fst (snd (VerifyToken tokenString)) with
          | None => [rest_effect (rest_Error "Claims are nil"
                                    StatusInternalServerError)]
          | Some claims => [WriteJson_claims claims]
          end
      end)%list.
Proof.
  unfold ServeVerifyToken, TrimPrefix, Jwt.HasPrefix.
  rewrite (prefix_app "Bearer " tokenString).
  change (drop (String.length "Bearer ") ("Bearer " ++ tokenString))
    with tokenString.
  cbn [negb].
  destruct (VerifyToken tokenString) as [logged [claims err]]. reflexivity.
Qed.

Lemma VerifyToken_logs (tokenString : string) :
  fst (VerifyToken tokenString)
  = [log_Printf ("Verifying token " ++ tokenString ++ newline)].
Proof.
  unfold VerifyToken.
  destruct (Jwt.ParseWithClaims _ _ _ _) as [token [err|]]; [reflexivity|].
  destruct token as [token|]; [|reflexivity].
  destruct (Jwt.Valid token); reflexivity.
Qed.

(** X23. [ServeVerifyToken] writes claims as its answer exactly when
    the [Authorization] header is ["Bearer "] followed by a token that
    [VerifyToken] accepts, and the claims written are those [VerifyToken]
    returns. *)
Theorem ServeVerifyToken_echoes_only_verified (authorization : string)
        (claims : DuetClaims) :
  In (WriteJson_claims claims) (ServeVerifyToken authorization) <->
  exists tokenString,
    authorization = "Bearer " ++ tokenString /\
    snd (VerifyToken tokenString) = (Some claims, None).
Proof.
  split.
  - destruct (Jwt.HasPrefix authorization "Bearer ") eqn:Hp.
    + pose proof (prefix_drop "Bearer " authorization Hp) as Ha.
      set (tokenString := drop (String.length "Bearer ") authorization) in Ha.
      rewrite Ha, ServeVerifyToken_bearer, VerifyToken_logs.
      intros Hin. exists tokenString. split; [reflexivity|].
      destruct (VerifyToken_shape tokenString) as [[c E]|[e E]];
        rewrite E in Hin |- *; cbn in Hin.
      * destruct Hin as [Hin|[Hin|[]]]; [discriminate|]. now injection Hin as <-.
      * destruct Hin as [Hin|[Hin|[]]]; discriminate.
    + unfold ServeVerifyToken. rewrite Hp. cbn.
      intros [Hin|[]]. discriminate.
  - intros (tokenString & -> & E).
    rewrite ServeVerifyToken_bearer, E. cbn [fst snd].
    apply in_or_app. right. simpl. auto.
Qed.

(** X24. Every error answer of [ServeVerifyToken] is a 401: the
    internal-server-error answer for nil claims is never written, since
    [VerifyToken] returns no nil claims without an error. *)
Theorem ServeVerifyToken_errors_are_401 (authorization msg : string) (code : Z) :
  In (rest_effect (rest_Error msg code)) (ServeVerifyToken authorization) ->
  code = StatusUnauthorized.
Proof.
  destruct (Jwt.HasPrefix authorization "Bearer ") eqn:Hp.
  - rewrite (prefix_drop "Bearer " authorization Hp).
    rewrite ServeVerifyToken_bearer, VerifyToken_logs.
    destruct (VerifyToken_shape (drop (String.length "Bearer ") authorization))
      as [[c E]|[e E]]; rewrite E; cbn; intros [Hin|[Hin|[]]]; try discriminate.
    now injection Hin as _ <-.
  - unfold ServeVerifyToken. rewrite Hp. cbn. intros [Hin|[]].
    now injection Hin as _ <-.
Qed.

(** X25. Login, then verify: the token [ServeLogin] writes for a
    username, sent to [ServeVerifyToken] in a bearer header, is answered
    with the claims of that login, whose subject is the username; this for
    a codec that carries the token. *)
Theorem login_token_is_echoed (userAndPass : usernameAndPassword) :
  wire_carries (Login_Username userAndPass) ->
  exists tokenString,
    ServeLogin (Ok userAndPass) =
      [login_line userAndPass; WriteJson [("token", tokenString)]] /\
    ServeVerifyToken ("Bearer " ++ tokenString) =
      [rest_effect (log_Printf ("Verifying token " ++ tokenString ++ newline));
       WriteJson_claims (login_claims (Login_Username userAndPass))].
Proof.
  intros Hw. eexists. split; [apply ServeLogin_writes|].
  rewrite ServeVerifyToken_bearer.
  rewrite (VerifyToken_login_token _ Hw). reflexivity.
Qed.

End VerifyHandler.

Lemma ServeVerifyToken_echoes_only_verified_witness :
  In (WriteJson_claims (login_claims "alice"))
     (ServeVerifyToken (H := Sample.wire)
        ("Bearer " ++ Sample.forge "HS256" "alice" tokenSecret)).
Proof.
  apply (proj2 (ServeVerifyToken_echoes_only_verified (W := Sample.wire)
                  ("Bearer " ++ Sample.forge "HS256" "alice" tokenSecret)
                  (login_claims "alice"))).
  exists (Sample.forge "HS256" "alice" tokenSecret).
  split; [reflexivity|]. vm_compute. reflexivity.
Defined.

Lemma login_token_is_echoed_witness :
  exists tokenString,
    ServeLogin (H := Sample.wire)
      (Ok {| Login_Username := "alice"; Password := "pw1" |}) =
      [login_line {| Login_Username := "alice"; Password := "pw1" |};
       WriteJson [("token", tokenString)]] /\
    ServeVerifyToken (H := Sample.wire) ("Bearer " ++ tokenString) =
      [rest_effect (log_Printf ("Verifying token " ++ tokenString ++ newline));
       WriteJson_claims (login_claims "alice")].
Proof.
  apply (login_token_is_echoed (W := Sample.wire)
           {| Login_Username := "alice"; Password := "pw1" |}).
  repeat split; vm_compute; reflexivity.
Defined.

Lemma ServeVerifyToken_errors_are_401_witness :
  401 = StatusUnauthorized.
Proof.
  apply (ServeVerifyToken_errors_are_401 (W := Sample.wire) "Basic alice"
           "Invalid authentication method" 401).
  left. reflexivity.
Defined.

(** X26. Every run of the gate answers the request exactly once: it
    writes one error response or calls the wrapped handler once, never
    both and never neither. *)
Theorem gate_answers_once `{G : GateEnv} (now : Z) (r : Request) :
  List.length (filter is_answer (authGraphqlHandler now r)) = 1%nat.
Proof.
  destruct (authGraphqlHandler_cases now r)
    as [(err & _ & E)|[(token & err & took & _ & _ & E)
                      |(token & userId & took & _ & _ & E)]];
    rewrite E; reflexivity.
Qed.


Lemma token_of_other_secret_rejected_witness :
  exists e,
    snd (VerifyToken (H := Sample.wire)
           (Sample.forge "HS256" "alice" "otherSecret")) = (None, Some e).
Proof.
  apply (token_of_other_secret_rejected (W := Sample.wire) (login_claims "alice")
           "otherSecret" (Sample.forge "HS256" "alice" "otherSecret")).
  - vm_compute. reflexivity.
  - vm_compute. reflexivity.
  - vm_compute. reflexivity.
  - split; vm_compute; reflexivity.
  - vm_compute. discriminate.
Defined.

(** * The secret and the key of the MAC *)

Lemma length_app (a b : string) :
  String.length (a ++ b) = (String.length a + String.length b)%nat.
Proof. induction a as [|c a IH]; simpl; [reflexivity|]. now rewrite IH. Qed.

(** A key shorter than a block and the same key followed by a zero byte
    are one key to [crypto/hmac], whatever the hash. *)
Lemma Hmac_zero_padded_key (hash : bytes -> bytes) (blocksize : nat)
      (key msg : bytes) :
  (String.length key < blocksize)%nat ->
  Hmac.Sum hash blocksize (key ++ String zero EmptyString) msg
  = Hmac.Sum hash blocksize key msg.
Proof.
  intros Hlen. unfold Hmac.Sum.
  assert (Hblock : Hmac.block_key hash blocksize (key ++ String zero EmptyString)
                   = Hmac.block_key hash blocksize key).
  { unfold Hmac.block_key. rewrite length_app. cbn [String.length].
    assert (H1 : Nat.ltb blocksize (String.length key + 1) = false)
      by (apply Nat.ltb_ge; lia).
    assert (H2 : Nat.ltb blocksize (String.length key) = false)
      by (apply Nat.ltb_ge; lia).
    rewrite H1, H2, append_assoc, length_app. cbn [String.length]. f_equal.
    replace (blocksize - String.length key)%nat
      with (S (blocksize - (String.length key + 1)))%nat by lia.
    reflexivity. }
  now rewrite Hblock.
Qed.

(** With the MAC made as [crypto/hmac] makes it over some hash, signing
    under the service's secret followed by a zero byte gives the token that
    signing under the service's secret gives. *)
Lemma SignedString_zero_padded_secret `{W : Jwt.Wire DuetClaims}
      (hash : bytes -> bytes) (claims : DuetClaims) :
  (forall key msg,
      Jwt.HMAC Jwt.SHA256 key msg
      = Hmac.Sum hash (Hmac.BlockSize Jwt.SHA256) key msg) ->
  Jwt.SignedString (Jwt.NewWithClaims Jwt.HS256 claims) Keyed.padded_secret
  = Jwt.SignedString (Jwt.NewWithClaims Jwt.HS256 claims) tokenSecret.
Proof.
  intros Hmac. unfold Jwt.SignedString, Jwt.Sign.
  cbn [Jwt.NewWithClaims Jwt.Method Jwt.hash_of].
  rewrite !Hmac. unfold Keyed.padded_secret.
  rewrite Hmac_zero_padded_key; [reflexivity|]. simpl. lia.
Qed.

(** C6 as the design document words it fails: the token that signing
    the claims of a login under the service's secret followed by a zero
    byte gives, a secret other than the service's, is accepted by
    [VerifyToken], with its claims. *)
Lemma zero_padded_secret_verifies :
  ~ refuses_every_other_secret Keyed.wire.
Proof.
  intros Hclaim.
  destruct (Jwt.SignedString (H := Keyed.wire)
              (Jwt.NewWithClaims Jwt.HS256 (login_claims "alice"))
              Keyed.padded_secret) as [tokenString|e] eqn:E;
    [|vm_compute in E; discriminate].
  destruct (Hclaim (login_claims "alice") Keyed.padded_secret tokenString)
    as [err Herr].
  - intros Heq. apply (f_equal String.length) in Heq. discriminate.
  - exact E.
  - vm_compute in E. injection E as <-. vm_compute in Herr. discriminate.
Qed.
